(** * Cashtime PIX client (cashtime.py): a shallow embedding and its properties

    The module wraps two HTTP calls of a payment provider.  Python values are
    embedded as an inductive type, exceptions as a sum, and the network as a
    world record whose calls are recorded in a trace.  Floats are IEEE 754
    binary64, as CPython's are, through the kernel's primitive floats. *)

From Stdlib Require Import ZArith List Bool Ascii String Lia.
From Stdlib Require Import Floats.PrimFloat Floats.FloatOps Floats.SpecFloat.
From stdpp Require Import base option list gmap strings pretty.

(* A decimal literal denotes the nearest binary64, as it does in Python. *)
#[local] Set Warnings "-register-all,-inexact-float".

(** ** Python values *)

(** The values that can sit in the [data] dictionary, in a JSON body or in a
    result.  A dictionary keeps its insertion order (it is what [json.dumps]
    and the provider see), hence the association list. *)
Inductive pyval : Type :=
| PNone
| PBool (b : bool)
| PInt (n : Z)
| PFloat (f : float)
| PStr (s : string)
| PList (l : list pyval)
| PDict (d : list (string * pyval)).

Abbreviation dict := (list (string * pyval)).

(** [bool(v)]: the truth value Python's [if] and [not] use. *)
Definition truthy (v : pyval) : bool :=
  match v with
  | PNone => false
  | PBool b => b
  | PInt n => negb (n =? 0)%Z
  | PFloat f => negb (PrimFloat.eqb f 0%float)
  | PStr s => negb (String.eqb s "")
  | PList l => match l with [] => false | _ => true end
  | PDict d => match d with [] => false | _ => true end
  end.

(** [bool(s)] for [Optional[str]]. *)
Definition truthy_opt (o : option string) : bool :=
  match o with
  | None => false
  | Some s => negb (String.eqb s "")
  end.

Definition type_name (v : pyval) : string :=
  match v with
  | PNone => "NoneType"
  | PBool _ => "bool"
  | PInt _ => "int"
  | PFloat _ => "float"
  | PStr _ => "str"
  | PList _ => "list"
  | PDict _ => "dict"
  end.

(** [k in d], [d[k]] and [d.get(k, default)] on a dictionary. *)
Fixpoint dict_lookup (d : dict) (k : string) : option pyval :=
  match d with
  | [] => None
  | (k', v) :: rest => if String.eqb k' k then Some v else dict_lookup rest k
  end.

Definition dict_get (d : dict) (k : string) (default : pyval) : pyval :=
  match dict_lookup d k with
  | Some v => v
  | None => default
  end.

Definition dict_keys (d : dict) : list string := map fst d.

(** ** Exceptions *)

(** The classes of [Exception] the module raises, catches or can be handed
    by the interpreter and by [requests].  [RequestException] stands for the
    class and its subclasses, which is all [except] can tell.  Only instances
    of [Exception] are modelled: [KeyboardInterrupt] and [SystemExit], which no
    [except Exception] catches, are the interpreter's and not the provider's. *)
Inductive exn_class : Type :=
| Exception
| ValueError
| TypeError
| AttributeError
| OverflowError
| ZeroDivisionError
| KeyError
| RequestException.

Record pyexn : Type := Raise { exn_cls : exn_class; exn_str : string }.

(** [isinstance(e, requests.exceptions.RequestException)] *)
Definition is_request_exception (e : pyexn) : bool :=
  match exn_cls e with
  | RequestException => true
  | _ => false
  end.

(** A computation that returns or raises. *)
Definition res (A : Type) : Type := pyexn + A.

Definition res_bind {A B : Type} (m : res A) (k : A -> res B) : res B :=
  match m with
  | inl e => inl e
  | inr a => k a
  end.

#[global] Instance res_mret : MRet res := fun A a => inr a.

#[global] Instance res_mbind : MBind res := fun A B k m => res_bind m k.

Definition no_attribute (v : pyval) (attr : string) : pyexn :=
  Raise AttributeError
    ("'" +:+ type_name v +:+ "' object has no attribute '" +:+ attr +:+ "'").

(** [v.get(k, default)]: only a dictionary has the method. *)
Definition py_get (v : pyval) (k : string) (default : pyval) : res pyval :=
  match v with
  | PDict d => inr (dict_get d k default)
  | _ => inl (no_attribute v "get")
  end.

(** [d[k]] *)
Definition py_index (d : dict) (k : string) : res pyval :=
  match dict_lookup d k with
  | Some v => inr v
  | None => inl (Raise KeyError ("'" +:+ k +:+ "'"))
  end.

(** [s.replace(c, '')] for a one-character [c]. *)
Fixpoint remove_char (c : Ascii.ascii) (s : string) : string :=
  match s with
  | EmptyString => EmptyString
  | String a rest =>
      if Ascii.eqb a c then remove_char c rest else String a (remove_char c rest)
  end.

(** [v.replace('.', '').replace('-', '')] *)
Definition strip_punctuation (v : pyval) : res pyval :=
  match v with
  | PStr s => inr (PStr (remove_char "-"%char (remove_char "."%char s)))
  | _ => inl (no_attribute v "replace")
  end.

(** ** Numbers *)

(** [float(n)] for an [int]: the nearest binary64, ties to even. *)
Definition float_of_int (n : Z) : res float :=
  match binary_normalize prec emax n 0 false with
  | S754_infinity _ => inl (Raise OverflowError "int too large to convert to float")
  | sf => inr (SF2Prim sf)
  end.

(** [int(f)]: truncation toward zero. *)
Definition int_of_float (f : float) : res Z :=
  match Prim2SF f with
  | S754_zero _ => inr 0%Z
  | S754_finite s m e =>
      let magnitude :=
        if (0 <=? e)%Z then Z.shiftl (Z.pos m) e else Z.shiftr (Z.pos m) (- e) in
      inr (if s then (- magnitude)%Z else magnitude)
  | S754_infinity _ =>
      inl (Raise OverflowError "cannot convert float infinity to integer")
  | S754_nan => inl (Raise ValueError "cannot convert float NaN to integer")
  end.

(** [a / b] on two [int]s: the quotient rounded once to binary64. *)
Definition int_true_div (a b : Z) : res float :=
  if (b =? 0)%Z then inl (Raise ZeroDivisionError "division by zero")
  else if (a =? 0)%Z then inr (if (b <? 0)%Z then (-0)%float else 0%float)
  else
    let num := S754_finite (a <? 0)%Z (Z.to_pos (Z.abs a)) 0 in
    let den := S754_finite (b <? 0)%Z (Z.to_pos (Z.abs b)) 0 in
    match SFdiv prec emax num den with
    | S754_infinity _ =>
        inl (Raise OverflowError "integer division result too large for a float")
    | sf => inr (SF2Prim sf)
    end.

Definition float_true_div (x y : float) : res float :=
  if PrimFloat.eqb y 0%float then inl (Raise ZeroDivisionError "float division by zero")
  else inr (x / y)%float.

Definition bool_to_Z (b : bool) : Z := if b then 1%Z else 0%Z.

Definition unsupported_div (a b : pyval) : pyexn :=
  Raise TypeError
    ("unsupported operand type(s) for /: '" +:+ type_name a +:+ "' and '"
       +:+ type_name b +:+ "'").

(** The number behind a value that has one ([bool] is a subclass of [int]). *)
Inductive number : Type :=
| NInt (n : Z)
| NFloat (f : float).

Definition as_number (v : pyval) : option number :=
  match v with
  | PBool b => Some (NInt (bool_to_Z b))
  | PInt n => Some (NInt n)
  | PFloat f => Some (NFloat f)
  | _ => None
  end.

(** [a / b], Python's true division. *)
Definition py_truediv (a b : pyval) : res pyval :=
  match as_number a, as_number b with
  | Some (NInt x), Some (NInt y) =>
      res_bind (int_true_div x y) (fun q => inr (PFloat q))
  | Some (NFloat x), Some (NInt y) =>
      res_bind (float_of_int y) (fun fy =>
      res_bind (float_true_div x fy) (fun q => inr (PFloat q)))
  | Some (NInt x), Some (NFloat y) =>
      res_bind (float_of_int x) (fun fx =>
      res_bind (float_true_div fx y) (fun q => inr (PFloat q)))
  | Some (NFloat x), Some (NFloat y) =>
      res_bind (float_true_div x y) (fun q => inr (PFloat q))
  | _, _ => inl (unsupported_div a b)
  end.

(** ** The world outside the module *)

(** What [requests] hands back: the status, [response.ok], the body text and
    what [response.json()] returns or raises. *)
Record response : Type := Response {
  status_code : Z;
  ok : bool;
  text : string;
  json : res pyval
}.

(** Everything the module reads from outside: the process environment, the
    clock, the random source and the provider behind [requests].  The two
    [datetime] computations are kept whole: [expires_at_iso m] is
    [datetime.now() + timedelta(minutes=m)] rendered by [isoformat()], which
    raises for an [m] that is no number or is out of range.  [float_of_str]
    is [float(s)] on a [str].  [json_dumps v] is [json.dumps(v, indent=2)],
    which raises for an [int] beyond the interpreter's limit of decimal
    digits and for a value nested beyond its recursion limit. *)
Record world : Type := World {
  environ : gmap string string;
  timestamp_now : Z;
  urandom : nat -> list N;
  expires_at_iso : pyval -> res string;
  created_at_iso : string;
  float_of_str : string -> res float;
  json_dumps : pyval -> res string;
  requests_post : string -> gmap string string -> pyval -> Z -> res response;
  requests_get : string -> gmap string string -> Z -> res response
}.

(** A call that left the process. *)
Inductive net_call : Type :=
| HttpPost (url : string) (headers : gmap string string) (body : pyval) (timeout : Z)
| HttpGet (url : string) (headers : gmap string string) (timeout : Z).

(** Code that may raise and may call the network: the calls made so far are
    threaded through, and stay made when an exception unwinds. *)
Definition M (A : Type) : Type := list net_call -> res A * list net_call.

#[global] Instance M_ret : MRet M := fun A a tr => (inr a, tr).

#[global] Instance M_bind : MBind M := fun A B k m tr =>
  match m tr with
  | (inl e, tr') => (inl e, tr')
  | (inr a, tr') => k a tr'
  end.

Definition raise {A : Type} (e : pyexn) : M A := fun tr => (inl e, tr).

Definition lift {A : Type} (r : res A) : M A := fun tr => (r, tr).

(** [try: m  except Exception as e: handler e] *)
Definition try_except {A : Type} (m : M A) (handler : pyexn -> M A) : M A :=
  fun tr =>
    match m tr with
    | (inl e, tr') => handler e tr'
    | (inr a, tr') => (inr a, tr')
    end.

Definition http_post (w : world) (url : string) (headers : gmap string string)
    (body : pyval) (timeout : Z) : M response :=
  fun tr => (requests_post w url headers body timeout,
             tr ++ [HttpPost url headers body timeout]).

Definition http_get (w : world) (url : string) (headers : gmap string string)
    (timeout : Z) : M response :=
  fun tr => (requests_get w url headers timeout, tr ++ [HttpGet url headers timeout]).

(** ** class CashtimeAPI *)

Record CashtimeAPI : Type := Build_CashtimeAPI {
  secret_key : string;
  public_key : option string
}.

Definition API_URL : string := "https://api.cashtime.com.br/v1".

Definition _get_headers (self : CashtimeAPI) : gmap string string :=
  let headers : gmap string string :=
    <["x-authorization-key" := secret_key self]>
      {["Content-Type" := "application/json"]} in
  match public_key self with
  | Some pk => if truthy_opt (Some pk) then <["x-store-key" := pk]> headers else headers
  | None => headers
  end.

(** [bytes.hex().upper()] *)
Definition hex_digit_upper (n : N) : string :=
  match n with
  | 0%N => "0" | 1%N => "1" | 2%N => "2" | 3%N => "3"
  | 4%N => "4" | 5%N => "5" | 6%N => "6" | 7%N => "7"
  | 8%N => "8" | 9%N => "9" | 10%N => "A" | 11%N => "B"
  | 12%N => "C" | 13%N => "D" | 14%N => "E" | _ => "F"
  end.

Definition hex_upper (bytes : list N) : string :=
  foldr (fun b acc => hex_digit_upper (b / 16 mod 16) +:+ hex_digit_upper (b mod 16) +:+ acc)
        "" bytes.

Definition _generate_txid (w : world) : string :=
  "CASHTIME" +:+ pretty (timestamp_now w) +:+ hex_upper (urandom w 4).

Definition transactions_url : string := API_URL +:+ "/transactions".

Definition status_url (txid : string) : string :=
  API_URL +:+ "/transactions/" +:+ txid.

(** *** create_pix_payment *)

Definition required_fields : list string := ["amount"; "description"].

Definition missing_field (field : string) : pyexn :=
  Raise ValueError ("Campo obrigatório ausente: " +:+ field).

(** [field not in data or not data[field]] *)
Definition absent_or_falsy (data : dict) (field : string) : bool :=
  match dict_lookup data field with
  | None => true
  | Some v => negb (truthy v)
  end.

(** The loop over [required_fields]: the first field that is absent or
    falsy raises. *)
Fixpoint check_required (data : dict) (fields : list string) : res unit :=
  match fields with
  | [] => inr tt
  | field :: rest =>
      if absent_or_falsy data field then inl (missing_field field)
      else check_required data rest
  end.

(** [float(v)] *)
Definition py_float (w : world) (v : pyval) : res float :=
  match v with
  | PFloat f => inr f
  | PInt n => float_of_int n
  | PBool b => inr (if b then 1%float else 0%float)
  | PStr s => float_of_str w s
  | _ => inl (Raise TypeError
                ("float() argument must be a string or a real number, not '"
                   +:+ type_name v +:+ "'"))
  end.

(** [int(float(amount) * 100)] *)
Definition amount_to_cents (w : world) (amount : pyval) : res Z :=
  f ← py_float w amount;
  int_of_float (f * 100)%float.

Definition cashtime_payload (data : dict) (amount_cents : Z) : res pyval :=
  number ← strip_punctuation (dict_get data "cpf" (PStr ""));
  description ← py_index data "description";
  mret (PDict
    [ ("paymentMethod", PStr "pix");
      ("customer", PDict
         [ ("name", dict_get data "name" (PStr "Cliente"));
           ("email", dict_get data "email" (PStr "cliente@dominio.com.br"));
           ("phone", dict_get data "phone" (PStr "11999999999"));
           ("document", PDict [ ("number", number); ("type", PStr "cpf") ]) ]);
      ("items", PList
         [ PDict
             [ ("title", PStr "Regularização de Débitos");
               ("description", description);
               ("unitPrice", PInt amount_cents);
               ("quantity", PInt 1);
               ("tangible", PBool false) ] ]);
      ("isInfoProducts", PBool true);
      ("installments", PInt 1);
      ("installmentFee", PInt 0);
      ("postbackUrl", PStr "https://webhook.site/unique-uuid-4-testing");
      ("ip", PStr "127.0.0.1");
      ("amount", PInt amount_cents) ]).

(** The three exceptions of the [if not response.ok] block. *)
Definition authentication_error : pyexn :=
  Raise Exception "Erro de autenticação. Verifique sua secret key da Cashtime".

Definition provider_validation_error : pyexn :=
  Raise Exception "Dados inválidos enviados para a API".

Definition api_error (code : Z) : pyexn :=
  Raise Exception ("Erro na API Cashtime: " +:+ pretty code).

Definition status_error (code : Z) : pyexn :=
  if (code =? 403)%Z then authentication_error
  else if (code =? 400)%Z then provider_validation_error
  else api_error code.

(** The two [except] clauses: what reaches the caller. *)
Definition connection_failure (e : pyexn) : pyexn :=
  Raise Exception ("Erro de conexão com a API: " +:+ exn_str e).

Definition processing_failure (e : pyexn) : pyexn :=
  Raise Exception ("Erro ao processar pagamento: " +:+ exn_str e).

(** The body of the [try].  The [logger] calls write to the log only and
    are left out, but for the [json.dumps] of the payload that the one before
    the POST formats: it is evaluated in the [try] and can raise.  The one
    after the POST formats what [response.json()] has just parsed, which the
    encoder accepts, and is left out with its call. *)
Definition create_pix_payment_body (w : world) (self : CashtimeAPI) (data : dict)
    : M pyval :=
  lift (check_required data required_fields);;
  let txid := _generate_txid w in
  let expiration_minutes := dict_get data "expirationMinutes" (PInt 60) in
  expires_at ← lift (expires_at_iso w expiration_minutes);
  amount ← lift (py_index data "amount");
  amount_cents ← lift (amount_to_cents w amount);
  payload ← lift (cashtime_payload data amount_cents);
  logged ← lift (json_dumps w payload);
  let headers := _get_headers self in
  response ← http_post w transactions_url headers payload 30;
  (if negb (ok response) then raise (status_error (status_code response))
   else mret ());;
  cashtime_result ← lift (json response);
  pix_data ← lift (py_get cashtime_result "pix" (PDict []));
  pix_code ← lift (py_get pix_data "payload" (PStr ""));
  qr_code_image ← lift (py_get pix_data "encodedImage" (PStr ""));
  cashtime_id ← lift (py_get cashtime_result "id" (PStr ""));
  amount ← lift (py_index data "amount");
  description ← lift (py_index data "description");
  status ← lift (py_get cashtime_result "status" (PStr "pending"));
  mret (PDict
    [ ("success", PBool true);
      ("txid", PStr txid);
      ("cashtime_id", cashtime_id);
      ("amount", amount);
      ("currency", PStr "BRL");
      ("description", description);
      ("status", status);
      ("pix_code", pix_code);
      ("qr_code_image", qr_code_image);
      ("expires_at", PStr expires_at);
      ("created_at", PStr (created_at_iso w));
      ("payer", PDict
         [ ("name", dict_get data "name" PNone);
           ("cpf", dict_get data "cpf" PNone);
           ("email", dict_get data "email" PNone) ]);
      ("cashtime_response", cashtime_result) ]).

Definition create_pix_payment (w : world) (self : CashtimeAPI) (data : dict)
    : M pyval :=
  try_except (create_pix_payment_body w self data)
    (fun e =>
       if is_request_exception e then raise (connection_failure e)
       else raise (processing_failure e)).

(** *** check_payment_status *)

Definition failure_result (message : string) : pyval :=
  PDict [ ("success", PBool false); ("error", PStr message) ].

Definition check_payment_status_body (w : world) (self : CashtimeAPI) (txid : string)
    : M pyval :=
  let headers := _get_headers self in
  response ← http_get w (status_url txid) headers 30;
  if (status_code response =? 404)%Z then
    mret (failure_result "Transação não encontrada")
  else if negb (ok response) then
    mret (failure_result ("Erro na API: " +:+ pretty (status_code response)))
  else
    result ← lift (json response);
    orders ← lift (py_get result "orders" (PDict []));
    status ← lift (py_get orders "status" (PStr "unknown"));
    total ← lift (py_get orders "total" PNone);
    amount ← (if truthy total then
                total ← lift (py_get orders "total" (PInt 0));
                lift (py_truediv total (PInt 100))
              else mret (PInt 0));
    payment_method ← lift (py_get orders "paymentMethod" PNone);
    created_at ← lift (py_get orders "createdAt" PNone);
    updated_at ← lift (py_get orders "updatedAt" PNone);
    mret (PDict
      [ ("success", PBool true);
        ("txid", PStr txid);
        ("status", status);
        ("amount", amount);
        ("payment_method", payment_method);
        ("created_at", created_at);
        ("updated_at", updated_at);
        ("cashtime_response", result) ]).

Definition check_payment_status (w : world) (self : CashtimeAPI) (txid : string)
    : M pyval :=
  try_except (check_payment_status_body w self txid)
    (fun e => mret (failure_result (exn_str e))).

(** ** create_cashtime_api *)

Definition missing_secret_key : pyexn :=
  Raise ValueError "CASHTIME_SECRET_KEY não encontrada nas variáveis de ambiente".

Definition create_cashtime_api (w : world) (secret_key public_key : option string)
    : res CashtimeAPI :=
  secret_key ←
    (if negb (truthy_opt secret_key) then
       let secret_key := environ w !! "CASHTIME_SECRET_KEY" in
       if negb (truthy_opt secret_key) then inl missing_secret_key
       else inr secret_key
     else inr secret_key);
  let public_key :=
    if negb (truthy_opt public_key) then environ w !! "CASHTIME_PUBLIC_KEY"
    else public_key in
  mret (Build_CashtimeAPI (default "" secret_key) public_key).

(** ** Sample worlds and requests, used to run the code on concrete inputs *)

Definition pix_response : response :=
  Response 201 true "{...}"
    (inr (PDict
       [ ("id", PStr "tr_01");
         ("status", PStr "pending");
         ("pix", PDict [ ("payload", PStr "00020126"); ("encodedImage", PStr "iVBOR") ]) ])).

Definition status_response (total : pyval) : response :=
  Response 200 true "{...}"
    (inr (PDict
       [ ("orders", PDict
            [ ("status", PStr "paid"); ("total", total); ("paymentMethod", PStr "pix") ]) ])).

Definition error_response (code : Z) : response :=
  Response code false "error" (inl (Raise ValueError "Expecting value")).

(** A provider that answers every POST with [created] and every GET with
    [looked_up]; no environment variable is set. *)
Definition sample_world (created looked_up : res response) : world :=
  {| environ := ∅;
     timestamp_now := 1700000000;
     urandom := fun _ => [222; 173; 190; 239]%N;
     expires_at_iso := fun m =>
       match as_number m with
       | Some _ => inr "2023-11-14T23:13:20"
       | None => inl (Raise TypeError "unsupported type for timedelta minutes component")
       end;
     created_at_iso := "2023-11-14T22:13:20";
     float_of_str := fun s => inl (Raise ValueError "could not convert string to float");
     json_dumps := fun _ => inr "{...}";
     requests_post := fun _ _ _ _ => created;
     requests_get := fun _ _ _ => looked_up |}.

Definition sample_client : CashtimeAPI := Build_CashtimeAPI "sk_live" None.

Definition sample_request (amount : pyval) : dict :=
  [ ("amount", amount); ("description", PStr "Taxa") ].

(** A subscript, [v[k]] on a dictionary or [v[i]] on a list, and a chain of
    them, used to read a field of a payload or of a result. *)
Inductive subscript : Type :=
| Key (k : string)
| Index (i : nat).

Fixpoint py_path (v : pyval) (path : list subscript) : option pyval :=
  match path with
  | [] => Some v
  | Key k :: rest =>
      match v with
      | PDict d =>
          match dict_lookup d k with
          | Some v' => py_path v' rest
          | None => None
          end
      | _ => None
      end
  | Index i :: rest =>
      match v with
      | PList l =>
          match l !! i with
          | Some v' => py_path v' rest
          | None => None
          end
      | _ => None
      end
  end.

(** The same world with another clock reading and other random bytes. *)
Definition reseed (w : world) (ts : Z) (rnd : nat -> list N) : world :=
  {| environ := environ w;
     timestamp_now := ts;
     urandom := rnd;
     expires_at_iso := expires_at_iso w;
     created_at_iso := created_at_iso w;
     float_of_str := float_of_str w;
     json_dumps := json_dumps w;
     requests_post := requests_post w;
     requests_get := requests_get w |}.

(** The digits [bytes.hex().upper()] is written with. *)
Definition is_hex_upper (c : ascii) : bool :=
  existsb (Ascii.eqb c) (list_ascii_of_string "0123456789ABCDEF").

(** What the two [except] clauses of [create_pix_payment] turn an exception
    into. *)
Definition reraised (e : pyexn) : pyexn :=
  if is_request_exception e then connection_failure e else processing_failure e.

Ltac unfold_M :=
  unfold try_except, mbind, M_bind, mret, M_ret, lift, raise, http_get, http_post in *.

(** Splits on the next call that decides between returning and raising. *)
Ltac step_run :=
  match goal with
  | |- context [match ?x with inl _ => _ | inr _ => _ end] =>
      lazymatch x with
      | context [match _ with _ => _ end] => fail
      | context [if _ then _ else _] => fail
      | _ => destruct x eqn:?; simpl
      end
  | |- context [if absent_or_falsy ?d ?k then _ else _] =>
      destruct (absent_or_falsy d k) eqn:?; simpl
  | |- context [if is_request_exception ?e then _ else _] =>
      destruct (is_request_exception e) eqn:?; simpl
  | |- context [negb (ok ?r)] => destruct (ok r) eqn:?; simpl
  end.

(** ** Runs on concrete inputs *)

Example generate_txid_sample :
  _generate_txid (sample_world (inr pix_response) (inr pix_response))
  = "CASHTIME1700000000DEADBEEF".
Proof. vm_compute. reflexivity. Qed.

Example int_true_div_1990 : int_true_div 1990 100 = inr 19.9%float.
Proof. vm_compute. reflexivity. Qed.

Example amount_to_cents_int w : amount_to_cents w (PInt 20) = inr 2000%Z.
Proof. vm_compute. reflexivity. Qed.

Example check_payment_status_timeout :
  fst (check_payment_status
         (sample_world (inr pix_response) (inl (Raise RequestException "Read timed out")))
         sample_client "tr_01" [])
  = inr (PDict [ ("success", PBool false); ("error", PStr "Read timed out") ]).
Proof. reflexivity. Qed.

Example check_payment_status_body_is_a_list :
  fst (check_payment_status
         (sample_world (inr pix_response) (inr (Response 200 true "[]" (inr (PList [])))))
         sample_client "tr_01" [])
  = inr (PDict [ ("success", PBool false);
                 ("error", PStr "'list' object has no attribute 'get'") ]).
Proof. reflexivity. Qed.

Example create_pix_payment_timeout :
  fst (create_pix_payment
         (sample_world (inl (Raise RequestException "Read timed out")) (inr pix_response))
         sample_client (sample_request (PInt 20)) [])
  = inl (Raise Exception "Erro de conexão com a API: Read timed out").
Proof. reflexivity. Qed.

Example create_pix_payment_zero_amount :
  create_pix_payment (sample_world (inr pix_response) (inr pix_response))
    sample_client (sample_request (PInt 0)) []
  = (inl (Raise Exception "Erro ao processar pagamento: Campo obrigatório ausente: amount"),
     []).
Proof. reflexivity. Qed.

Example amount_to_cents_nan w : exists e, amount_to_cents w (PFloat nan) = inl e.
Proof. eexists. vm_compute. reflexivity. Qed.

(** ** Headers *)

Lemma truthy_opt_Some (s : string) : truthy_opt (Some s) = true <-> s <> "".
Proof.
  unfold truthy_opt. rewrite negb_true_iff. split.
  - intros H ->. discriminate.
  - intros H. apply String.eqb_neq. exact H.
Qed.

Lemma get_headers_store_key (self : CashtimeAPI) :
  _get_headers self !! "x-store-key"
  = if truthy_opt (public_key self) then public_key self else None.
Proof.
  unfold _get_headers. destruct (public_key self) as [pk|].
  - destruct (truthy_opt (Some pk)).
    + by rewrite lookup_insert_eq.
    + reflexivity.
  - reflexivity.
Qed.

(** C5: the headers always hold the content type and the secret key under
    [x-authorization-key]; [x-store-key] is there exactly when the public key
    is set (truthy, as [if self.public_key] tests it), and then holds it; and
    the headers are a function of the two credential fields alone. *)
Theorem get_headers_spec (self : CashtimeAPI) :
  _get_headers self !! "Content-Type" = Some "application/json"
  /\ _get_headers self !! "x-authorization-key" = Some (secret_key self)
  /\ (is_Some (_get_headers self !! "x-store-key") <-> truthy_opt (public_key self) = true)
  /\ (forall pk, _get_headers self !! "x-store-key" = Some pk -> public_key self = Some pk)
  /\ (forall k, is_Some (_get_headers self !! k) ->
        k = "Content-Type" \/ k = "x-authorization-key" \/ k = "x-store-key")
  /\ (forall other, secret_key other = secret_key self ->
        public_key other = public_key self -> _get_headers other = _get_headers self).
Proof.
  split_and!.
  - unfold _get_headers. destruct (public_key self) as [pk|]; [destruct (truthy_opt _)|]; done.
  - unfold _get_headers.
    destruct (public_key self) as [pk|]; [destruct (truthy_opt _)|];
      by simplify_map_eq.
  - rewrite get_headers_store_key. destruct (truthy_opt _) eqn:Ht.
    + destruct (public_key self); [|done]. split; eauto.
    + split; [by intros [? ?]|done].
  - intros pk. rewrite get_headers_store_key. by destruct (truthy_opt _).
  - intros k. unfold _get_headers.
    destruct (public_key self) as [pk|]; [destruct (truthy_opt _)|];
      rewrite ?lookup_insert; repeat case_decide; subst; auto;
      rewrite lookup_singleton; case_decide; subst; auto; by intros [? ?].
  - intros [sk pk] Hs Hp. simpl in *. by subst.
Qed.

(** ** The factory *)

Lemma truthy_opt_default (o : option string) :
  truthy_opt o = true -> Some (default "" o) = o /\ default "" o <> "".
Proof.
  destruct o as [s|]; [|done]. simpl. intros H. split; [done|]. by apply truthy_opt_Some.
Qed.

(** C7: the factory raises, with the one configuration error, exactly when
    neither the argument nor CASHTIME_SECRET_KEY gives a non-empty secret key;
    otherwise it returns a client, whose secret key is that value and is not
    empty; whether a public key is given or found in the environment never
    decides between the two. *)
Theorem create_cashtime_api_spec (w : world) (secret public : option string) :
  (create_cashtime_api w secret public = inl missing_secret_key
   <-> truthy_opt secret = false
       /\ truthy_opt (environ w !! "CASHTIME_SECRET_KEY") = false)
  /\ (forall e, create_cashtime_api w secret public = inl e -> e = missing_secret_key)
  /\ (forall api, create_cashtime_api w secret public = inr api -> secret_key api <> "")
  /\ (truthy_opt secret || truthy_opt (environ w !! "CASHTIME_SECRET_KEY") = true ->
      exists api, create_cashtime_api w secret public = inr api
        /\ Some (secret_key api)
           = (if truthy_opt secret then secret else environ w !! "CASHTIME_SECRET_KEY")
        /\ public_key api
           = if truthy_opt public then public else environ w !! "CASHTIME_PUBLIC_KEY").
Proof.
  unfold create_cashtime_api.
  destruct (truthy_opt secret) eqn:Hs; simpl.
  - destruct (truthy_opt_default _ Hs) as [Hkey Hne].
    split_and!; try done.
    + split; [done|]. by intros [? _].
    + intros api [= <-]. done.
    + intros _. eexists. split_and!; [reflexivity|done|]. simpl.
      by destruct (truthy_opt public).
  - destruct (truthy_opt (environ w !! "CASHTIME_SECRET_KEY")) eqn:He; simpl.
    + destruct (truthy_opt_default _ He) as [Hkey Hne].
      split_and!; try done.
      * split; [done|]. by intros [_ ?].
      * intros api [= <-]. done.
      * intros _. eexists. split_and!; [reflexivity|done|]. simpl.
        by destruct (truthy_opt public).
    + split_and!; try done. by intros e [= <-].
Qed.

(** ** check_payment_status *)


(** C8: a response with status 404 gives the fixed not-found failure, with
    no exception, whatever its [ok] flag says: the test comes first, so the
    message that carries the status code is never the one returned. *)
Theorem check_payment_status_not_found
    (w : world) (self : CashtimeAPI) (txid : string) (tr : list net_call) (r : response) :
  requests_get w (status_url txid) (_get_headers self) 30 = inr r ->
  status_code r = 404%Z ->
  check_payment_status w self txid tr
  = (inr (PDict [ ("success", PBool false); ("error", PStr "Transação não encontrada") ]),
     tr ++ [HttpGet (status_url txid) (_get_headers self) 30])
  /\ fst (check_payment_status w self txid tr)
     <> inr (failure_result ("Erro na API: " +:+ pretty (status_code r))).
Proof.
  intros Hget H404.
  assert (check_payment_status w self txid tr
          = (inr (failure_result "Transação não encontrada"),
             tr ++ [HttpGet (status_url txid) (_get_headers self) 30])) as Hrun.
  { unfold check_payment_status, check_payment_status_body. unfold_M.
    rewrite Hget, H404. reflexivity. }
  split; [exact Hrun|].
  rewrite Hrun, H404. simpl. by intros [=].
Qed.

(** The successful path of [check_payment_status], in one equation. *)
Lemma check_payment_status_ok
    (w : world) (self : CashtimeAPI) (txid : string) (tr : list net_call)
    (r : response) (body orders : dict) :
  requests_get w (status_url txid) (_get_headers self) 30 = inr r ->
  status_code r <> 404%Z ->
  ok r = true ->
  json r = inr (PDict body) ->
  dict_get body "orders" (PDict []) = PDict orders ->
  check_payment_status w self txid tr
  = (inr match (if truthy (dict_get orders "total" PNone)
                then py_truediv (dict_get orders "total" (PInt 0)) (PInt 100)
                else inr (PInt 0)) with
         | inl e => failure_result (exn_str e)
         | inr amount =>
             PDict
               [ ("success", PBool true);
                 ("txid", PStr txid);
                 ("status", dict_get orders "status" (PStr "unknown"));
                 ("amount", amount);
                 ("payment_method", dict_get orders "paymentMethod" PNone);
                 ("created_at", dict_get orders "createdAt" PNone);
                 ("updated_at", dict_get orders "updatedAt" PNone);
                 ("cashtime_response", PDict body) ]
         end,
     tr ++ [HttpGet (status_url txid) (_get_headers self) 30]).
Proof.
  intros Hget H404 Hok Hjson Horders.
  unfold check_payment_status, check_payment_status_body. unfold_M.
  apply Z.eqb_neq in H404.
  rewrite Hget, H404, Hok, Hjson. simpl. rewrite Horders. simpl.
  destruct (truthy (dict_get orders "total" PNone)); simpl.
  - destruct (py_truediv _ _); reflexivity.
  - reflexivity.
Qed.


(** ** create_pix_payment *)

Lemma trace_grows (tr : list net_call) (c : net_call) : tr <> tr ++ [c].
Proof.
  intros H. apply (f_equal length) in H. rewrite length_app in H. simpl in H. lia.
Qed.

Lemma status_error_not_request (code : Z) :
  is_request_exception (status_error code) = false.
Proof. unfold status_error. by repeat case_match. Qed.

(** C2: when [amount] or [description] is absent or falsy, the call raises
    the validation failure that names the first such field (as the one
    exception shape the method lets out), and the trace is left as it was:
    no POST has been made. *)
Theorem create_pix_payment_missing_field
    (w : world) (self : CashtimeAPI) (data : dict) (tr : list net_call) :
  absent_or_falsy data "amount" || absent_or_falsy data "description" = true ->
  let field := if absent_or_falsy data "amount" then "amount" else "description" in
  create_pix_payment w self data tr
  = (inl (Raise Exception
            ("Erro ao processar pagamento: " +:+ ("Campo obrigatório ausente: " +:+ field))),
     tr)
  /\ fst (create_pix_payment w self data tr) = inl (processing_failure (missing_field field)).
Proof.
  intros Hmissing field. subst field.
  unfold create_pix_payment, create_pix_payment_body, required_fields. unfold_M.
  simpl.
  destruct (absent_or_falsy data "amount"); simpl; [done|].
  simpl in Hmissing. rewrite Hmissing. done.
Qed.

(** C4: when the POST was made and answered by a response that is not
    [ok], the call raises and returns nothing: 403 gives the authentication
    failure, 400 the invalid-data failure, any other status the API failure
    whose message ends with the status code. *)
Theorem create_pix_payment_status_error
    (w : world) (self : CashtimeAPI) (data : dict) (tr tr' : list net_call)
    (out : res pyval) (url : string) (headers : gmap string string) (body : pyval)
    (timeout : Z) (r : response) :
  create_pix_payment w self data tr = (out, tr') ->
  tr' = tr ++ [HttpPost url headers body timeout] ->
  requests_post w url headers body timeout = inr r ->
  ok r = false ->
  out = inl (processing_failure (status_error (status_code r)))
  /\ (status_code r = 403%Z ->
      out = inl (Raise Exception
                   ("Erro ao processar pagamento: "
                      +:+ "Erro de autenticação. Verifique sua secret key da Cashtime")))
  /\ (status_code r = 400%Z ->
      out = inl (Raise Exception
                   ("Erro ao processar pagamento: " +:+ "Dados inválidos enviados para a API")))
  /\ (status_code r <> 403%Z -> status_code r <> 400%Z ->
      out = inl (Raise Exception
                   ("Erro ao processar pagamento: "
                      +:+ ("Erro na API Cashtime: " +:+ pretty (status_code r))))).
Proof.
  intros Hrun Htr Hpost Hok.
  assert (out = inl (processing_failure (status_error (status_code r)))) as ->.
  { revert Hrun. unfold create_pix_payment, create_pix_payment_body. unfold_M.
    simpl. repeat step_run; intros [= <- Htr']; subst tr';
      try (by apply trace_grows in Htr');
      apply app_inj_tail in Htr' as [_ [= <- <- <- <-]];
      simplify_eq/=.
    all: try congruence.
    all: by rewrite status_error_not_request in *. }
  split; [done|]. unfold status_error. split_and!.
  - intros ->. done.
  - intros ->. done.
  - intros H403 H400. apply Z.eqb_neq in H403, H400. by rewrite H403, H400.
Qed.

(** C4, where the claim as written fails: a status outside 2xx for which
    [response.ok] is true, such as a 302 that was not followed, does not take
    the error branch; with an object for a body the call returns a result. *)
Lemma create_pix_payment_redirect_returns :
  status_code (Response 302 true "{}" (inr (PDict []))) = 302%Z
  /\ exists r,
       fst (create_pix_payment
              (sample_world (inr (Response 302 true "{}" (inr (PDict [])))) (inr pix_response))
              sample_client (sample_request (PInt 20)) [])
       = inr r
       /\ py_path r [Key "success"] = Some (PBool true).
Proof. split; [reflexivity|]. eexists. split; reflexivity. Qed.

Lemma missing_field_not_request (field : string) :
  is_request_exception (missing_field field) = false.
Proof. reflexivity. Qed.

(** What a run that returns went through. *)
Lemma create_pix_payment_returns
    (w : world) (self : CashtimeAPI) (data : dict) (tr tr' : list net_call) (r : pyval) :
  create_pix_payment w self data tr = (inr r, tr') ->
  exists expires amount cents payload resp result pix_data pix_code qr id description status,
    absent_or_falsy data "amount" = false
    /\ absent_or_falsy data "description" = false
    /\ expires_at_iso w (dict_get data "expirationMinutes" (PInt 60)) = inr expires
    /\ py_index data "amount" = inr amount
    /\ amount_to_cents w amount = inr cents
    /\ cashtime_payload data cents = inr payload
    /\ requests_post w transactions_url (_get_headers self) payload 30 = inr resp
    /\ ok resp = true
    /\ json resp = inr result
    /\ py_get result "pix" (PDict []) = inr pix_data
    /\ py_get pix_data "payload" (PStr "") = inr pix_code
    /\ py_get pix_data "encodedImage" (PStr "") = inr qr
    /\ py_get result "id" (PStr "") = inr id
    /\ py_index data "description" = inr description
    /\ py_get result "status" (PStr "pending") = inr status
    /\ tr' = tr ++ [HttpPost transactions_url (_get_headers self) payload 30]
    /\ r = PDict
         [ ("success", PBool true);
           ("txid", PStr (_generate_txid w));
           ("cashtime_id", id);
           ("amount", amount);
           ("currency", PStr "BRL");
           ("description", description);
           ("status", status);
           ("pix_code", pix_code);
           ("qr_code_image", qr);
           ("expires_at", PStr expires);
           ("created_at", PStr (created_at_iso w));
           ("payer", PDict
              [ ("name", dict_get data "name" PNone);
                ("cpf", dict_get data "cpf" PNone);
                ("email", dict_get data "email" PNone) ]);
           ("cashtime_response", result) ].
Proof.
  unfold create_pix_payment, create_pix_payment_body. unfold_M. simpl.
  repeat step_run; intros [= <- <-].
  repeat eexists; eauto.
Qed.

(** The trace a run leaves: nothing, or the one POST of the payload built
    from [data] and the cents. *)
Lemma create_pix_payment_trace
    (w : world) (self : CashtimeAPI) (data : dict) (tr : list net_call) :
  snd (create_pix_payment w self data tr) = tr
  \/ exists amount cents payload,
       py_index data "amount" = inr amount
       /\ amount_to_cents w amount = inr cents
       /\ cashtime_payload data cents = inr payload
       /\ snd (create_pix_payment w self data tr)
          = tr ++ [HttpPost transactions_url (_get_headers self) payload 30].
Proof.
  unfold create_pix_payment, create_pix_payment_body. unfold_M. simpl.
  repeat step_run; auto; right; repeat eexists; eauto.
Qed.

Lemma dict_lookup_fresh (d : dict) (k : string) :
  k ∉ dict_keys d -> dict_lookup d k = None.
Proof.
  induction d as [|[k' v] d IH]; simpl; [done|].
  intros Hfresh. apply not_elem_of_cons in Hfresh as [Hne Hfresh].
  destruct (String.eqb_spec k' k) as [->|_]; [done|]. by apply IH.
Qed.

Lemma cashtime_payload_keys (data : dict) (cents : Z) (payload : pyval) :
  cashtime_payload data cents = inr payload ->
  exists d, payload = PDict d
    /\ dict_keys d
       = [ "paymentMethod"; "customer"; "items"; "isInfoProducts"; "installments";
           "installmentFee"; "postbackUrl"; "ip"; "amount" ].
Proof.
  unfold cashtime_payload, mbind, res_mbind, res_bind, mret, res_mret.
  destruct (strip_punctuation _); [done|].
  destruct (py_index _ _); [done|].
  intros [= <-]. by eexists.
Qed.

Lemma amount_to_cents_reseed (w : world) (ts : Z) (rnd : nat -> list N) (amount : pyval) :
  amount_to_cents (reseed w ts rnd) amount = amount_to_cents w amount.
Proof. by destruct amount. Qed.

(** C9: the transaction identifier is not part of what is sent.  The trace
    of a run, hence the payload posted, is the same under any other clock
    reading and random bytes, the two things the identifier is made of; the
    payload is built from [data] and the cents alone and has no [txid] entry;
    and a result that is returned carries the identifier under [txid]. *)
Theorem create_pix_payment_txid
    (w : world) (self : CashtimeAPI) (data : dict) (tr : list net_call) :
  (forall ts rnd,
     snd (create_pix_payment (reseed w ts rnd) self data tr)
     = snd (create_pix_payment w self data tr))
  /\ (snd (create_pix_payment w self data tr) = tr
      \/ exists cents payload d,
           cashtime_payload data cents = inr payload
           /\ snd (create_pix_payment w self data tr)
              = tr ++ [HttpPost transactions_url (_get_headers self) payload 30]
           /\ payload = PDict d
           /\ dict_lookup d "txid" = None
           /\ "txid" ∉ dict_keys d)
  /\ (forall r tr', create_pix_payment w self data tr = (inr r, tr') ->
        py_path r [Key "txid"] = Some (PStr (_generate_txid w))).
Proof.
  split_and!.
  - intros ts rnd.
    unfold create_pix_payment, create_pix_payment_body. unfold_M. simpl.
    repeat (rewrite ?amount_to_cents_reseed; step_run); reflexivity.
  - destruct (create_pix_payment_trace w self data tr)
      as [Hnone|(amount & cents & payload & _ & _ & Hpayload & Htrace)]; [by left|].
    right. exists cents, payload.
    destruct (cashtime_payload_keys data cents payload Hpayload) as (d & -> & Hkeys).
    assert ("txid" ∉ dict_keys d) as Hfresh.
    { rewrite Hkeys. intros Hin. repeat (apply elem_of_cons in Hin as [[=]|Hin]).
      by apply elem_of_nil in Hin. }
    exists d. split_and!; try done. by apply dict_lookup_fresh.
  - intros r tr' Hrun.
    apply create_pix_payment_returns in Hrun.
    destruct Hrun as (? & ? & ? & ? & ? & ? & ? & ? & ? & ? & ? & ? & Hrun).
    destruct Hrun as (_&_&_&_&_&_&_&_&_&_&_&_&_&_&_&_& ->). reflexivity.
Qed.

Lemma cashtime_payload_fields (data : dict) (cents : Z) (payload : pyval) :
  cashtime_payload data cents = inr payload ->
  py_path payload [Key "amount"] = Some (PInt cents)
  /\ py_path payload [Key "items"; Index 0; Key "unitPrice"] = Some (PInt cents)
  /\ py_path payload [Key "customer"; Key "name"]
     = Some (dict_get data "name" (PStr "Cliente"))
  /\ py_path payload [Key "customer"; Key "email"]
     = Some (dict_get data "email" (PStr "cliente@dominio.com.br"))
  /\ (dict_lookup data "cpf" = None ->
      py_path payload [Key "customer"; Key "document"; Key "number"] = Some (PStr "")).
Proof.
  unfold cashtime_payload, mbind, res_mbind, res_bind, mret, res_mret.
  destruct (strip_punctuation _) as [|number] eqn:Hstrip; [done|].
  destruct (py_index _ _); [done|].
  intros [= <-]. split_and!; try reflexivity.
  intros Hcpf. unfold dict_get in Hstrip. rewrite Hcpf in Hstrip.
  injection Hstrip as <-. reflexivity.
Qed.

(** C10: a result that is returned has [success] true and currency BRL,
    and carries [data]'s own amount and description (the payload posted
    carries the cents instead); its payer fields are [data.get] of name, cpf
    and email, so [None] for a missing one, where the payload posted holds
    the default customer value. *)
Theorem create_pix_payment_result
    (w : world) (self : CashtimeAPI) (data : dict) (tr tr' : list net_call) (r : pyval) :
  create_pix_payment w self data tr = (inr r, tr') ->
  py_path r [Key "success"] = Some (PBool true)
  /\ py_path r [Key "currency"] = Some (PStr "BRL")
  /\ is_Some (dict_lookup data "amount")
  /\ py_path r [Key "amount"] = dict_lookup data "amount"
  /\ is_Some (dict_lookup data "description")
  /\ py_path r [Key "description"] = dict_lookup data "description"
  /\ py_path r [Key "payer"]
     = Some (PDict [ ("name", dict_get data "name" PNone);
                     ("cpf", dict_get data "cpf" PNone);
                     ("email", dict_get data "email" PNone) ])
  /\ exists amount cents payload,
       dict_lookup data "amount" = Some amount
       /\ amount_to_cents w amount = inr cents
       /\ tr' = tr ++ [HttpPost transactions_url (_get_headers self) payload 30]
       /\ py_path payload [Key "amount"] = Some (PInt cents)
       /\ (dict_lookup data "name" = None ->
           py_path r [Key "payer"; Key "name"] = Some PNone
           /\ py_path payload [Key "customer"; Key "name"] = Some (PStr "Cliente"))
       /\ (dict_lookup data "email" = None ->
           py_path r [Key "payer"; Key "email"] = Some PNone
           /\ py_path payload [Key "customer"; Key "email"]
              = Some (PStr "cliente@dominio.com.br"))
       /\ (dict_lookup data "cpf" = None ->
           py_path r [Key "payer"; Key "cpf"] = Some PNone
           /\ py_path payload [Key "customer"; Key "document"; Key "number"]
              = Some (PStr "")).
Proof.
  intros Hrun. apply create_pix_payment_returns in Hrun.
  destruct Hrun as (expires & amount & cents & payload & resp & result & pix_data
                    & pix_code & qr & id & description & status & Hrun).
  destruct Hrun as (_ & _ & _ & Hamount & Hcents & Hpayload & _ & _ & _ & _ & _ & _ & _
                    & Hdescription & _ & -> & ->).
  unfold py_index in Hamount, Hdescription.
  destruct (dict_lookup data "amount") as [a|] eqn:Ha; [|done].
  destruct (dict_lookup data "description") as [d|] eqn:Hd; [|done].
  injection Hamount as ->. injection Hdescription as ->.
  destruct (cashtime_payload_fields data cents payload Hpayload)
    as (Hp_amount & _ & Hp_name & Hp_email & Hp_cpf).
  split_and!; try done.
  exists amount, cents, payload. split_and!; try done.
  - intros Hname. unfold dict_get in *. rewrite Hname in *. by simpl.
  - intros Hemail. unfold dict_get in *. rewrite Hemail in *. by simpl.
  - intros Hcpf. split; [|by apply Hp_cpf]. unfold dict_get. rewrite Hcpf. by simpl.
Qed.

(** C3: the cents placed in the payload, as unit price and as total, are
    [int(float(amount) * 100)], with the product taken in binary64.  For 10.005
    that is 1000; for 19.90 it is 1989, not 1990, since the float product is
    1989.9999999999998. *)
Theorem create_pix_payment_cents (w : world) :
  (forall self data tr,
     snd (create_pix_payment w self data tr) = tr
     \/ exists amount cents payload,
          py_index data "amount" = inr amount
          /\ amount_to_cents w amount = inr cents
          /\ snd (create_pix_payment w self data tr)
             = tr ++ [HttpPost transactions_url (_get_headers self) payload 30]
          /\ py_path payload [Key "amount"] = Some (PInt cents)
          /\ py_path payload [Key "items"; Index 0; Key "unitPrice"] = Some (PInt cents))
  /\ (forall f, amount_to_cents w (PFloat f) = int_of_float (f * 100)%float)
  /\ amount_to_cents w (PFloat 10.005) = inr 1000%Z
  /\ amount_to_cents w (PFloat 19.90) = inr 1989%Z
  /\ (19.90 * 100 <? 1990)%float = true
  /\ exists payload,
       snd (create_pix_payment (sample_world (inr pix_response) (inr pix_response))
              sample_client (sample_request (PFloat 19.90)) [])
       = [HttpPost transactions_url (_get_headers sample_client) payload 30]
       /\ py_path payload [Key "amount"] = Some (PInt 1989)
       /\ py_path payload [Key "items"; Index 0; Key "unitPrice"] = Some (PInt 1989).
Proof.
  split_and!.
  - intros self data tr.
    destruct (create_pix_payment_trace w self data tr)
      as [Hnone|(amount & cents & payload & Hamount & Hcents & Hpayload & Htrace)];
      [by left|].
    right. exists amount, cents, payload.
    destruct (cashtime_payload_fields data cents payload Hpayload) as (? & ? & _).
    by split_and!.
  - reflexivity.
  - vm_compute. reflexivity.
  - vm_compute. reflexivity.
  - vm_compute. reflexivity.
  - eexists. split_and!; [reflexivity | reflexivity | reflexivity].
Qed.

(** ** The theorems at concrete inputs *)

Lemma create_pix_payment_missing_field_witness :
  create_pix_payment (sample_world (inr pix_response) (inr pix_response)) sample_client
    [ ("description", PStr "Taxa") ] []
  = (inl (Raise Exception "Erro ao processar pagamento: Campo obrigatório ausente: amount"),
     []).
Proof.
  exact (proj1 (create_pix_payment_missing_field
                  (sample_world (inr pix_response) (inr pix_response)) sample_client
                  [ ("description", PStr "Taxa") ] [] eq_refl)).
Defined.

Lemma create_pix_payment_status_error_witness :
  fst (create_pix_payment (sample_world (inr (error_response 500)) (inr pix_response))
         sample_client (sample_request (PInt 20)) [])
  = inl (Raise Exception "Erro ao processar pagamento: Erro na API Cashtime: 500").
Proof.
  pose (w := sample_world (inr (error_response 500)) (inr pix_response)).
  pose (body := match cashtime_payload (sample_request (PInt 20)) 2000 with
                | inr p => p
                | inl _ => PNone
                end).
  refine (proj1 (create_pix_payment_status_error w sample_client (sample_request (PInt 20))
                   [] [HttpPost transactions_url (_get_headers sample_client) body 30]
                   _ transactions_url (_get_headers sample_client) body 30
                   (error_response 500) _ eq_refl eq_refl eq_refl)).
  vm_compute. reflexivity.
Defined.

Lemma check_payment_status_not_found_witness :
  fst (check_payment_status (sample_world (inr pix_response) (inr (error_response 404)))
         sample_client "tr_01" [])
  = inr (PDict [ ("success", PBool false); ("error", PStr "Transação não encontrada") ]).
Proof.
  pose proof (proj1 (check_payment_status_not_found
                       (sample_world (inr pix_response) (inr (error_response 404)))
                       sample_client "tr_01" [] (error_response 404) eq_refl eq_refl)) as H.
  rewrite H. reflexivity.
Defined.


Lemma create_pix_payment_result_witness :
  exists r tr',
    create_pix_payment (sample_world (inr pix_response) (inr pix_response))
      sample_client (sample_request (PFloat 25.5)) []
    = (inr r, tr')
    /\ py_path r [Key "success"] = Some (PBool true)
    /\ py_path r [Key "amount"] = Some (PFloat 25.5)
    /\ py_path r [Key "payer"; Key "name"] = Some PNone.
Proof.
  pose (run := create_pix_payment (sample_world (inr pix_response) (inr pix_response))
                 sample_client (sample_request (PFloat 25.5)) []).
  pose (r := match fst run with inr r => r | inl _ => PNone end).
  assert (run = (inr r, snd run)) as Hrun by (vm_compute; reflexivity).
  exists r, (snd run). split; [exact Hrun|].
  destruct (create_pix_payment_result _ _ _ _ _ _ Hrun)
    as (Hsuccess & _ & _ & Hamount & _ & _ & _ & amount & cents & payload & H).
  destruct H as (_ & _ & _ & _ & Hname & _).
  split_and!; [exact Hsuccess | exact Hamount | exact (proj1 (Hname eq_refl))].
Defined.

(** ** Further properties: the transaction identifier *)

Lemma hex_digit_upper_char (n : N) :
  exists c, hex_digit_upper n = String c "" /\ is_hex_upper c = true.
Proof.
  destruct n as [|p]; [by eexists|].
  repeat first [ by eexists | destruct p as [p|p|] ].
Qed.

Lemma hex_digit_upper_inj (n m : N) :
  (n < 16)%N -> (m < 16)%N -> hex_digit_upper n = hex_digit_upper m -> n = m.
Proof.
  intros Hn Hm.
  destruct n as [|n]; [|repeat (destruct n as [n|n|]; try lia)];
    (destruct m as [|m]; [|repeat (destruct m as [m|m|]; try lia)]);
    simpl; intros H; first [reflexivity | discriminate H].
Qed.

Lemma append_char (c : ascii) (s : string) : String c "" +:+ s = String c s.
Proof. reflexivity. Qed.

Lemma hex_upper_cons (b : N) (bs : list N) :
  exists c1 c2,
    hex_upper (b :: bs) = String c1 (String c2 (hex_upper bs))
    /\ hex_digit_upper (b / 16 mod 16) = String c1 ""
    /\ hex_digit_upper (b mod 16) = String c2 ""
    /\ is_hex_upper c1 = true /\ is_hex_upper c2 = true.
Proof.
  destruct (hex_digit_upper_char (b / 16 mod 16)) as (c1 & H1 & Hc1).
  destruct (hex_digit_upper_char (b mod 16)) as (c2 & H2 & Hc2).
  exists c1, c2. split_and!; try done.
  unfold hex_upper. simpl. rewrite H1, H2. by rewrite !append_char.
Qed.

Lemma hex_upper_inj (bs1 bs2 : list N) :
  Forall (fun b => (b < 256)%N) bs1 -> Forall (fun b => (b < 256)%N) bs2 ->
  hex_upper bs1 = hex_upper bs2 -> bs1 = bs2.
Proof.
  intros H1. revert bs2. induction H1 as [|b1 bs1 Hb1 _ IH]; intros bs2 H2 Heq.
  - destruct bs2 as [|b2 bs2]; [done|].
    destruct (hex_upper_cons b2 bs2) as (? & ? & Hcons & _). rewrite Hcons in Heq.
    discriminate Heq.
  - destruct bs2 as [|b2 bs2].
    + destruct (hex_upper_cons b1 bs1) as (? & ? & Hcons & _). rewrite Hcons in Heq.
      discriminate Heq.
    + destruct (hex_upper_cons b1 bs1) as (c1 & c2 & Hcons1 & Hhi1 & Hlo1 & _).
      destruct (hex_upper_cons b2 bs2) as (d1 & d2 & Hcons2 & Hhi2 & Hlo2 & _).
      rewrite Hcons1, Hcons2 in Heq. injection Heq as -> -> Htail.
      apply Forall_cons in H2 as [Hb2 H2].
      rewrite <- Hhi2 in Hhi1. rewrite <- Hlo2 in Hlo1.
      apply hex_digit_upper_inj in Hhi1; [|by apply N.mod_lt..].
      apply hex_digit_upper_inj in Hlo1; [|by apply N.mod_lt..].
      f_equal; [|by apply IH].
      rewrite (N.div_mod b1 16), (N.div_mod b2 16) by done.
      rewrite N.mod_small in Hhi1 by (apply N.Div0.div_lt_upper_bound; lia).
      rewrite N.mod_small in Hhi1 by (apply N.Div0.div_lt_upper_bound; lia).
      by rewrite Hhi1, Hlo1.
Qed.

Lemma hex_upper_length (bs : list N) :
  String.length (hex_upper bs) = (2 * length bs)%nat.
Proof.
  induction bs as [|b bs IH]; [done|].
  destruct (hex_upper_cons b bs) as (c1 & c2 & -> & _). simpl. lia.
Qed.

Lemma hex_upper_alphabet (bs : list N) :
  Forall (fun c => is_hex_upper c = true) (list_ascii_of_string (hex_upper bs)).
Proof.
  induction bs as [|b bs IH]; [by constructor|].
  destruct (hex_upper_cons b bs) as (c1 & c2 & -> & _ & _ & H1 & H2).
  simpl. by repeat constructor.
Qed.

Lemma string_app_length (s t : string) :
  String.length (s +:+ t) = (String.length s + String.length t)%nat.
Proof. induction s as [|a s IH]; simpl; [done|]. by rewrite IH. Qed.

Lemma string_app_inj_suffix (s1 s2 t1 t2 : string) :
  String.length t1 = String.length t2 ->
  s1 +:+ t1 = s2 +:+ t2 -> s1 = s2 /\ t1 = t2.
Proof.
  revert s2. induction s1 as [|a s1 IH]; intros [|b s2] Hlen Heq.
  - done.
  - apply (f_equal String.length) in Heq.
    rewrite !string_app_length in Heq. simpl in Heq. lia.
  - apply (f_equal String.length) in Heq.
    rewrite !string_app_length in Heq. simpl in Heq. lia.
  - change (String a (s1 +:+ t1) = String b (s2 +:+ t2)) in Heq.
    injection Heq as -> Heq. destruct (IH _ Hlen Heq) as [-> ->]. done.
Qed.

(** X1: the identifier is [CASHTIME], the clock's seconds in decimal, and two
    uppercase hexadecimal digits for each random byte: with the four bytes of
    [os.urandom(4)] it ends in eight characters of [0-9A-F]. *)
Theorem generate_txid_format (w : world) :
  exists hex,
    _generate_txid w = "CASHTIME" +:+ pretty (timestamp_now w) +:+ hex
    /\ String.length hex = (2 * length (urandom w 4))%nat
    /\ Forall (fun c => is_hex_upper c = true) (list_ascii_of_string hex)
    /\ String.length (_generate_txid w)
       = (8 + String.length (pretty (timestamp_now w)) + 2 * length (urandom w 4))%nat.
Proof.
  exists (hex_upper (urandom w 4)). unfold _generate_txid. split_and!.
  - reflexivity.
  - apply hex_upper_length.
  - apply hex_upper_alphabet.
  - rewrite !string_app_length, hex_upper_length. simpl. lia.
Qed.

(** X2: two identifiers are equal only when the clock's second and the
    random bytes are: with four bytes each, as [os.urandom(4)] gives, the
    identifier determines both. *)
Theorem generate_txid_inj (w1 w2 : world) :
  length (urandom w1 4) = 4%nat ->
  length (urandom w2 4) = 4%nat ->
  Forall (fun b => (b < 256)%N) (urandom w1 4) ->
  Forall (fun b => (b < 256)%N) (urandom w2 4) ->
  _generate_txid w1 = _generate_txid w2 ->
  timestamp_now w1 = timestamp_now w2 /\ urandom w1 4 = urandom w2 4.
Proof.
  intros Hlen1 Hlen2 Hb1 Hb2 Heq. unfold _generate_txid in Heq.
  apply (inj (String.app "CASHTIME")) in Heq.
  apply string_app_inj_suffix in Heq as [Hts Hhex].
  - split; [by apply (inj pretty)|by apply hex_upper_inj].
  - by rewrite !hex_upper_length, Hlen1, Hlen2.
Qed.

Lemma generate_txid_inj_witness :
  timestamp_now (sample_world (inr pix_response) (inr pix_response))
  = timestamp_now (sample_world (inl (Raise RequestException "down")) (inr pix_response))
  /\ urandom (sample_world (inr pix_response) (inr pix_response)) 4
     = urandom (sample_world (inl (Raise RequestException "down")) (inr pix_response)) 4.
Proof.
  apply generate_txid_inj.
  - reflexivity.
  - reflexivity.
  - repeat constructor.
  - repeat constructor.
  - reflexivity.
Defined.

(** ** Further properties: create_pix_payment *)

(** A run raises nothing but a plain [Exception]. *)
Lemma create_pix_payment_raises_exception
    (w : world) (self : CashtimeAPI) (data : dict) (tr tr' : list net_call) (e : pyexn) :
  create_pix_payment w self data tr = (inl e, tr') -> exn_cls e = Exception.
Proof.
  unfold create_pix_payment, create_pix_payment_body. unfold_M. simpl.
  repeat step_run; intros [= <- <-]; reflexivity.
Qed.

Lemma py_get_total (v : pyval) (k1 k2 : string) (d1 d2 v1 : pyval) (e : pyexn) :
  py_get v k1 d1 = inr v1 -> py_get v k2 d2 = inl e -> False.
Proof. by destruct v. Qed.

Lemma cashtime_payload_description (data : dict) (cents : Z) (payload : pyval) :
  cashtime_payload data cents = inr payload ->
  exists description, py_index data "description" = inr description.
Proof.
  unfold cashtime_payload, mbind, res_mbind, res_bind.
  destruct (strip_punctuation _); [done|].
  destruct (py_index data "description"); [done|]. by eexists.
Qed.

(** A run stops before the POST, or goes through every step before it. *)
Lemma create_pix_payment_before_post
    (w : world) (self : CashtimeAPI) (data : dict) (tr : list net_call) :
  snd (create_pix_payment w self data tr) = tr
  \/ exists expires amount cents payload,
       absent_or_falsy data "amount" = false
       /\ absent_or_falsy data "description" = false
       /\ expires_at_iso w (dict_get data "expirationMinutes" (PInt 60)) = inr expires
       /\ py_index data "amount" = inr amount
       /\ amount_to_cents w amount = inr cents
       /\ cashtime_payload data cents = inr payload
       /\ (exists logged, json_dumps w payload = inr logged)
       /\ snd (create_pix_payment w self data tr)
          = tr ++ [HttpPost transactions_url (_get_headers self) payload 30].
Proof.
  unfold create_pix_payment, create_pix_payment_body. unfold_M. simpl.
  repeat step_run; auto; right; repeat eexists; eauto.
Qed.

(** What a run that made the POST went through before it. *)
Lemma create_pix_payment_posted
    (w : world) (self : CashtimeAPI) (data : dict) (tr : list net_call)
    (url : string) (headers : gmap string string) (body : pyval) (timeout : Z) :
  snd (create_pix_payment w self data tr) = tr ++ [HttpPost url headers body timeout] ->
  url = transactions_url /\ headers = _get_headers self /\ timeout = 30%Z
  /\ exists expires amount cents,
       absent_or_falsy data "amount" = false
       /\ absent_or_falsy data "description" = false
       /\ expires_at_iso w (dict_get data "expirationMinutes" (PInt 60)) = inr expires
       /\ py_index data "amount" = inr amount
       /\ amount_to_cents w amount = inr cents
       /\ cashtime_payload data cents = inr body
       /\ exists logged, json_dumps w body = inr logged.
Proof.
  intros Hsnd.
  destruct (create_pix_payment_before_post w self data tr)
    as [Hnone|(expires & amount & cents & payload & Ha & Hd & He & Hamount & Hcents
               & Hpayload & Hlogged & Htrace)].
  - rewrite Hnone in Hsnd. by apply trace_grows in Hsnd.
  - rewrite Htrace in Hsnd. apply app_inj_tail in Hsnd as [_ [= <- <- <- <-]].
    split_and!; try done. by exists expires, amount, cents.
Qed.

Lemma reraised_request (e : pyexn) :
  (if is_request_exception e then inl (connection_failure e)
   else inl (processing_failure e)) = inl (B:=pyval) (reraised e).
Proof. unfold reraised. by destruct (is_request_exception e). Qed.

(** The run from the POST on, once everything before it went through. *)
Lemma create_pix_payment_after_post
    (w : world) (self : CashtimeAPI) (data : dict) (tr : list net_call)
    (expires : string) (amount description : pyval) (cents : Z) (payload : pyval)
    (logged : string) :
  absent_or_falsy data "amount" = false ->
  absent_or_falsy data "description" = false ->
  expires_at_iso w (dict_get data "expirationMinutes" (PInt 60)) = inr expires ->
  py_index data "amount" = inr amount ->
  amount_to_cents w amount = inr cents ->
  cashtime_payload data cents = inr payload ->
  json_dumps w payload = inr logged ->
  py_index data "description" = inr description ->
  create_pix_payment w self data tr
  = (match requests_post w transactions_url (_get_headers self) payload 30 with
     | inl e => inl (reraised e)
     | inr resp =>
         if negb (ok resp) then inl (processing_failure (status_error (status_code resp)))
         else
           match json resp with
           | inl e => inl (reraised e)
           | inr (PDict b) =>
               match dict_get b "pix" (PDict []) with
               | PDict pix =>
                   inr (PDict
                     [ ("success", PBool true);
                       ("txid", PStr (_generate_txid w));
                       ("cashtime_id", dict_get b "id" (PStr ""));
                       ("amount", amount);
                       ("currency", PStr "BRL");
                       ("description", description);
                       ("status", dict_get b "status" (PStr "pending"));
                       ("pix_code", dict_get pix "payload" (PStr ""));
                       ("qr_code_image", dict_get pix "encodedImage" (PStr ""));
                       ("expires_at", PStr expires);
                       ("created_at", PStr (created_at_iso w));
                       ("payer", PDict
                          [ ("name", dict_get data "name" PNone);
                            ("cpf", dict_get data "cpf" PNone);
                            ("email", dict_get data "email" PNone) ]);
                       ("cashtime_response", PDict b) ])
               | pix_data => inl (processing_failure (no_attribute pix_data "get"))
               end
           | inr result => inl (processing_failure (no_attribute result "get"))
           end
     end,
     tr ++ [HttpPost transactions_url (_get_headers self) payload 30]).
Proof.
  intros Ha Hd He Hamount Hcents Hpayload Hlogged Hdescription.
  unfold create_pix_payment, create_pix_payment_body. unfold_M. simpl.
  rewrite Ha, Hd. simpl. rewrite He. simpl. rewrite Hamount. simpl.
  rewrite Hcents. simpl. rewrite Hpayload. simpl. rewrite Hlogged. simpl.
  destruct (requests_post w _ _ _ _) as [e|resp]; simpl.
  { by rewrite <- reraised_request; destruct (is_request_exception e). }
  destruct (ok resp); simpl.
  2: { by rewrite status_error_not_request. }
  destruct (json resp) as [e|result]; simpl.
  { by rewrite <- reraised_request; destruct (is_request_exception e). }
  destruct result as [| | | | | |b]; try reflexivity. simpl.
  destruct (dict_get b "pix" (PDict [])) as [| | | | | |pix]; try reflexivity. simpl.
  rewrite Hdescription. reflexivity.
Qed.

(** X3: an exception leaves [create_pix_payment] only when the body of
    its [try] raised one, the cause, and it is then a plain [Exception] whose
    message is the cause's behind the connection prefix when the cause is a
    [RequestException] and behind the processing prefix otherwise; so no
    [ValueError], [TypeError] or [RequestException] itself gets out. *)
Theorem create_pix_payment_raises_wrapped
    (w : world) (self : CashtimeAPI) (data : dict) (tr tr' : list net_call) (e : pyexn) :
  create_pix_payment w self data tr = (inl e, tr') ->
  exists cause,
    create_pix_payment_body w self data tr = (inl cause, tr')
    /\ e = Raise Exception
             ((if is_request_exception cause then "Erro de conexão com a API: "
               else "Erro ao processar pagamento: ") +:+ exn_str cause)
    /\ exn_cls e = Exception
    /\ is_request_exception e = false.
Proof.
  unfold create_pix_payment, try_except.
  destruct (create_pix_payment_body w self data tr) as [[cause|r] tr''] eqn:Hbody;
    [|done].
  destruct (is_request_exception cause) eqn:Hcls; unfold raise; intros [= <- <-];
    exists cause; by rewrite Hcls.
Qed.

Lemma create_pix_payment_raises_wrapped_witness :
  exists cause,
    create_pix_payment_body
      (sample_world (inl (Raise RequestException "Read timed out")) (inr pix_response))
      sample_client (sample_request (PInt 20)) []
    = (inl cause,
       [HttpPost transactions_url (_get_headers sample_client)
          (match cashtime_payload (sample_request (PInt 20)) 2000 with
           | inr p => p
           | inl _ => PNone
           end) 30])
    /\ Raise Exception "Erro de conexão com a API: Read timed out"
       = Raise Exception
           ((if is_request_exception cause then "Erro de conexão com a API: "
             else "Erro ao processar pagamento: ") +:+ exn_str cause)
    /\ exn_cls (Raise Exception "Erro de conexão com a API: Read timed out") = Exception
    /\ is_request_exception (Raise Exception "Erro de conexão com a API: Read timed out")
       = false.
Proof.
  apply (create_pix_payment_raises_wrapped
           (sample_world (inl (Raise RequestException "Read timed out")) (inr pix_response))
           sample_client (sample_request (PInt 20)) []).
  vm_compute. reflexivity.
Defined.

(** X4: a run makes at most one call, the POST to [/transactions] of the
    payload built from [data] and the cents, with the client's headers and a
    timeout of 30.  It makes it exactly when both required fields are truthy,
    the expiry can be computed, the amount converts to cents, the payload can
    be built (the cpf, if given, is a string) and the [json.dumps] of the
    payload, evaluated for the log, does not raise. *)
Theorem create_pix_payment_posts_iff
    (w : world) (self : CashtimeAPI) (data : dict) (tr : list net_call) :
  (snd (create_pix_payment w self data tr) = tr
   \/ exists amount cents payload,
        dict_lookup data "amount" = Some amount
        /\ amount_to_cents w amount = inr cents
        /\ cashtime_payload data cents = inr payload
        /\ snd (create_pix_payment w self data tr)
           = tr ++ [HttpPost transactions_url (_get_headers self) payload 30])
  /\ (snd (create_pix_payment w self data tr) <> tr
      <-> exists expires amount cents payload logged,
            absent_or_falsy data "amount" = false
            /\ absent_or_falsy data "description" = false
            /\ expires_at_iso w (dict_get data "expirationMinutes" (PInt 60)) = inr expires
            /\ dict_lookup data "amount" = Some amount
            /\ amount_to_cents w amount = inr cents
            /\ cashtime_payload data cents = inr payload
            /\ json_dumps w payload = inr logged).
Proof.
  assert (forall amount, py_index data "amount" = inr amount
                         <-> dict_lookup data "amount" = Some amount) as Hindex.
  { intros amount. unfold py_index. destruct (dict_lookup data "amount"); split; congruence. }
  split.
  - destruct (create_pix_payment_before_post w self data tr)
      as [Hnone|(expires & amount & cents & payload & _ & _ & _ & Hamount & Hcents
                 & Hpayload & _ & Htrace)]; [by left|].
    right. exists amount, cents, payload. split_and!; try done. by apply Hindex.
  - split.
    + intros Hposted.
      destruct (create_pix_payment_before_post w self data tr)
        as [Hnone|(expires & amount & cents & payload & Ha & Hd & He & Hamount & Hcents
                   & Hpayload & (logged & Hlogged) & _)]; [done|].
      exists expires, amount, cents, payload, logged. split_and!; try done. by apply Hindex.
    + intros (expires & amount & cents & payload & logged & Ha & Hd & He & Hamount
              & Hcents & Hpayload & Hlogged).
      apply Hindex in Hamount.
      destruct (cashtime_payload_description data cents payload Hpayload)
        as [description Hdescription].
      rewrite (create_pix_payment_after_post w self data tr expires amount description
                 cents payload logged) by assumption.
      simpl. intros Heq. symmetry in Heq. by apply trace_grows in Heq.
Qed.

(** The outcome of a run that made the POST, read off the provider's answer. *)
Lemma create_pix_payment_outcome
    (w : world) (self : CashtimeAPI) (data : dict) (tr : list net_call) (out : res pyval)
    (url : string) (headers : gmap string string) (body : pyval) (timeout : Z) :
  create_pix_payment w self data tr = (out, tr ++ [HttpPost url headers body timeout]) ->
  exists expires amount description,
    expires_at_iso w (dict_get data "expirationMinutes" (PInt 60)) = inr expires
    /\ dict_lookup data "amount" = Some amount
    /\ dict_lookup data "description" = Some description
    /\ out
       = match requests_post w url headers body timeout with
         | inl e => inl (reraised e)
         | inr resp =>
             if negb (ok resp)
             then inl (processing_failure (status_error (status_code resp)))
             else
               match json resp with
               | inl e => inl (reraised e)
               | inr (PDict b) =>
                   match dict_get b "pix" (PDict []) with
                   | PDict pix =>
                       inr (PDict
                         [ ("success", PBool true);
                           ("txid", PStr (_generate_txid w));
                           ("cashtime_id", dict_get b "id" (PStr ""));
                           ("amount", amount);
                           ("currency", PStr "BRL");
                           ("description", description);
                           ("status", dict_get b "status" (PStr "pending"));
                           ("pix_code", dict_get pix "payload" (PStr ""));
                           ("qr_code_image", dict_get pix "encodedImage" (PStr ""));
                           ("expires_at", PStr expires);
                           ("created_at", PStr (created_at_iso w));
                           ("payer", PDict
                              [ ("name", dict_get data "name" PNone);
                                ("cpf", dict_get data "cpf" PNone);
                                ("email", dict_get data "email" PNone) ]);
                           ("cashtime_response", PDict b) ])
                   | pix_data => inl (processing_failure (no_attribute pix_data "get"))
                   end
               | inr result => inl (processing_failure (no_attribute result "get"))
               end
         end.
Proof.
  intros Hrun.
  destruct (create_pix_payment_posted w self data tr url headers body timeout)
    as (-> & -> & -> & expires & amount & cents & Ha & Hd & He & Hamount & Hcents & Hpayload
        & logged & Hlogged).
  { by rewrite Hrun. }
  destruct (cashtime_payload_description data cents body Hpayload) as [description Hdesc].
  rewrite (create_pix_payment_after_post w self data tr expires amount description cents body
             logged) in Hrun by assumption.
  injection Hrun as <-.
  exists expires, amount, description. split_and!; try done.
  - unfold py_index in Hamount. by destruct (dict_lookup data "amount"); simplify_eq.
  - unfold py_index in Hdesc. by destruct (dict_lookup data "description"); simplify_eq.
Qed.

(** X5: when the POST itself raises, the caller gets the connection failure
    for a [RequestException] (a timeout, a refused connection) and the
    processing failure for anything else, each carrying the cause's message. *)
Theorem create_pix_payment_transport_failure
    (w : world) (self : CashtimeAPI) (data : dict) (tr tr' : list net_call)
    (out : res pyval) (url : string) (headers : gmap string string) (body : pyval)
    (timeout : Z) (e : pyexn) :
  create_pix_payment w self data tr = (out, tr') ->
  tr' = tr ++ [HttpPost url headers body timeout] ->
  requests_post w url headers body timeout = inl e ->
  out = inl (Raise Exception
               ((if is_request_exception e then "Erro de conexão com a API: "
                 else "Erro ao processar pagamento: ") +:+ exn_str e)).
Proof.
  intros Hrun -> Hpost.
  destruct (create_pix_payment_outcome _ _ _ _ _ _ _ _ _ Hrun) as (? & ? & ? & _ & _ & _ & ->).
  rewrite Hpost. unfold reraised. by destruct (is_request_exception e).
Qed.

Lemma create_pix_payment_transport_failure_witness :
  fst (create_pix_payment
         (sample_world (inl (Raise RequestException "Read timed out")) (inr pix_response))
         sample_client (sample_request (PInt 20)) [])
  = inl (Raise Exception "Erro de conexão com a API: Read timed out").
Proof.
  pose (w := sample_world (inl (Raise RequestException "Read timed out")) (inr pix_response)).
  pose (body := match cashtime_payload (sample_request (PInt 20)) 2000 with
                | inr p => p
                | inl _ => PNone
                end).
  refine (create_pix_payment_transport_failure w sample_client (sample_request (PInt 20))
            [] [HttpPost transactions_url (_get_headers sample_client) body 30]
            _ transactions_url (_get_headers sample_client) body 30
            (Raise RequestException "Read timed out") _ eq_refl eq_refl).
  vm_compute. reflexivity.
Defined.

(** X11: an [ok] response whose body is a JSON object with [pix] absent or
    an object always gives a result, never an exception: the PIX code and the
    QR image are the body's, or the empty string when the provider left them
    out, the provider id defaults to the empty string and the status to
    [pending], and the body is kept whole under [cashtime_response]. *)
Theorem create_pix_payment_returns_on_ok
    (w : world) (self : CashtimeAPI) (data : dict) (tr tr' : list net_call)
    (out : res pyval) (url : string) (headers : gmap string string) (body : pyval)
    (timeout : Z) (resp : response) (b pix : dict) :
  create_pix_payment w self data tr = (out, tr') ->
  tr' = tr ++ [HttpPost url headers body timeout] ->
  requests_post w url headers body timeout = inr resp ->
  ok resp = true ->
  json resp = inr (PDict b) ->
  dict_get b "pix" (PDict []) = PDict pix ->
  exists r,
    out = inr r
    /\ py_path r [Key "pix_code"] = Some (dict_get pix "payload" (PStr ""))
    /\ py_path r [Key "qr_code_image"] = Some (dict_get pix "encodedImage" (PStr ""))
    /\ py_path r [Key "cashtime_id"] = Some (dict_get b "id" (PStr ""))
    /\ py_path r [Key "status"] = Some (dict_get b "status" (PStr "pending"))
    /\ py_path r [Key "cashtime_response"] = Some (PDict b)
    /\ (exists expires,
          expires_at_iso w (dict_get data "expirationMinutes" (PInt 60)) = inr expires
          /\ py_path r [Key "expires_at"] = Some (PStr expires))
    /\ (dict_lookup b "pix" = None ->
        py_path r [Key "pix_code"] = Some (PStr "")
        /\ py_path r [Key "qr_code_image"] = Some (PStr "")).
Proof.
  intros Hrun -> Hpost Hok Hjson Hpix.
  destruct (create_pix_payment_outcome _ _ _ _ _ _ _ _ _ Hrun)
    as (expires & amount & description & He & _ & _ & ->).
  rewrite Hpost, Hok, Hjson, Hpix. simpl.
  eexists. split_and!; try reflexivity.
  { by exists expires. }
  intros Hnone. unfold dict_get in Hpix. rewrite Hnone in Hpix.
  injection Hpix as <-. done.
Qed.

Lemma create_pix_payment_returns_on_ok_witness :
  exists r,
    fst (create_pix_payment
           (sample_world (inr (Response 201 true "{}" (inr (PDict [])))) (inr pix_response))
           sample_client (sample_request (PInt 20)) [])
    = inr r
    /\ py_path r [Key "pix_code"] = Some (PStr "")
    /\ py_path r [Key "status"] = Some (PStr "pending").
Proof.
  pose (w := sample_world (inr (Response 201 true "{}" (inr (PDict [])))) (inr pix_response)).
  pose (body := match cashtime_payload (sample_request (PInt 20)) 2000 with
                | inr p => p
                | inl _ => PNone
                end).
  destruct (create_pix_payment_returns_on_ok w sample_client (sample_request (PInt 20))
              [] [HttpPost transactions_url (_get_headers sample_client) body 30]
              (fst (create_pix_payment w sample_client (sample_request (PInt 20)) []))
              transactions_url (_get_headers sample_client) body 30
              (Response 201 true "{}" (inr (PDict []))) [] [])
    as (r & Hr & Hcode & _ & _ & Hstatus & _); try reflexivity.
  exists r. split_and!; [exact Hr | exact Hcode | exact Hstatus].
Defined.

(** X12: an [ok] response whose body cannot be used makes the call raise
    although the POST went out: when [response.json()] raises, when the body
    is not a JSON object, and when its [pix] is present but is not an object
    (a null, say). *)
Theorem create_pix_payment_unusable_body
    (w : world) (self : CashtimeAPI) (data : dict) (tr tr' : list net_call)
    (out : res pyval) (url : string) (headers : gmap string string) (body : pyval)
    (timeout : Z) (resp : response) :
  create_pix_payment w self data tr = (out, tr') ->
  tr' = tr ++ [HttpPost url headers body timeout] ->
  requests_post w url headers body timeout = inr resp ->
  ok resp = true ->
  (forall e, json resp = inl e -> out = inl (reraised e))
  /\ (forall v, json resp = inr v -> (forall b, v <> PDict b) ->
        out = inl (Raise Exception
                     ("Erro ao processar pagamento: "
                        +:+ ("'" +:+ type_name v +:+ "' object has no attribute 'get'"))))
  /\ (forall b v, json resp = inr (PDict b) -> dict_lookup b "pix" = Some v ->
        (forall pix, v <> PDict pix) ->
        out = inl (Raise Exception
                     ("Erro ao processar pagamento: "
                        +:+ ("'" +:+ type_name v +:+ "' object has no attribute 'get'")))).
Proof.
  intros Hrun -> Hpost Hok.
  destruct (create_pix_payment_outcome _ _ _ _ _ _ _ _ _ Hrun)
    as (expires & amount & description & _ & _ & _ & ->).
  rewrite Hpost, Hok. simpl. split_and!.
  - by intros e ->.
  - intros v -> Hv. destruct v; try done. by edestruct Hv.
  - intros b v -> Hlookup Hv. unfold dict_get. rewrite Hlookup.
    destruct v; try done. by edestruct Hv.
Qed.

Lemma create_pix_payment_unusable_body_witness :
  fst (create_pix_payment
         (sample_world (inr (Response 201 true "{}" (inr (PDict [ ("pix", PNone) ]))))
            (inr pix_response))
         sample_client (sample_request (PInt 20)) [])
  = inl (Raise Exception
           "Erro ao processar pagamento: 'NoneType' object has no attribute 'get'").
Proof.
  pose (resp := Response 201 true "{}" (inr (PDict [ ("pix", PNone) ]))).
  pose (w := sample_world (inr resp) (inr pix_response)).
  pose (body := match cashtime_payload (sample_request (PInt 20)) 2000 with
                | inr p => p
                | inl _ => PNone
                end).
  refine (proj2 (proj2 (create_pix_payment_unusable_body w sample_client
                          (sample_request (PInt 20))
                          [] [HttpPost transactions_url (_get_headers sample_client) body 30]
                          _ transactions_url (_get_headers sample_client) body 30 resp
                          _ eq_refl eq_refl eq_refl))
            [ ("pix", PNone) ] PNone eq_refl eq_refl _).
  - vm_compute. reflexivity.
  - discriminate.
Defined.

(** ** Further properties: the tax id in the payload *)

Lemma remove_char_filter (c : ascii) (s : string) :
  list_ascii_of_string (remove_char c s)
  = filter (fun a => a <> c) (list_ascii_of_string s).
Proof.
  induction s as [|a s IH]; [done|]. simpl.
  destruct (Ascii.eqb_spec a c) as [->|Hne].
  - rewrite filter_cons_False by auto. exact IH.
  - rewrite filter_cons_True by done. simpl. by rewrite IH.
Qed.

Lemma cashtime_payload_cpf (data : dict) (cents : Z) (payload : pyval) :
  cashtime_payload data cents = inr payload ->
  exists cpf,
    dict_get data "cpf" (PStr "") = PStr cpf
    /\ py_path payload [Key "customer"; Key "document"; Key "number"]
       = Some (PStr (remove_char "-" (remove_char "." cpf)))
    /\ py_path payload [Key "customer"; Key "document"; Key "type"] = Some (PStr "cpf").
Proof.
  unfold cashtime_payload, mbind, res_mbind, res_bind, mret, res_mret, strip_punctuation.
  destruct (dict_get data "cpf" (PStr "")) as [| | | |cpf| |]; try done.
  destruct (py_index _ _); [done|]. intros [= <-]. by exists cpf.
Qed.

(** X7: the document number sent is the cpf with every dot and hyphen
    taken out and every other character kept in order (the empty string
    when no cpf is given), so it holds neither character; the document type
    is always [cpf]. *)
Theorem cashtime_payload_document
    (data : dict) (cents : Z) (payload : pyval) :
  cashtime_payload data cents = inr payload ->
  exists cpf number,
    dict_get data "cpf" (PStr "") = PStr cpf
    /\ py_path payload [Key "customer"; Key "document"; Key "number"] = Some (PStr number)
    /\ py_path payload [Key "customer"; Key "document"; Key "type"] = Some (PStr "cpf")
    /\ list_ascii_of_string number
       = filter (fun a => a <> "."%char /\ a <> "-"%char) (list_ascii_of_string cpf)
    /\ Forall (fun a => a <> "."%char /\ a <> "-"%char) (list_ascii_of_string number).
Proof.
  intros Hpayload.
  destruct (cashtime_payload_cpf data cents payload Hpayload) as (cpf & Hcpf & Hnumber & Htype).
  exists cpf, (remove_char "-" (remove_char "." cpf)).
  assert (list_ascii_of_string (remove_char "-" (remove_char "." cpf))
          = filter (fun a => a <> "."%char /\ a <> "-"%char) (list_ascii_of_string cpf))
    as Hfilter.
  { rewrite !remove_char_filter. rewrite list_filter_filter.
    apply list_filter_iff. intros a. tauto. }
  split_and!; try done.
  rewrite Hfilter. apply Forall_forall. intros a Hin.
  apply list_elem_of_filter in Hin. tauto.
Qed.

Lemma cashtime_payload_document_witness :
  exists cpf number,
    dict_get (("cpf", PStr "123.456.789-09") :: sample_request (PInt 20)) "cpf" (PStr "")
    = PStr cpf
    /\ py_path (match cashtime_payload
                        (("cpf", PStr "123.456.789-09") :: sample_request (PInt 20)) 2000 with
                | inr p => p
                | inl _ => PNone
                end)
         [Key "customer"; Key "document"; Key "number"] = Some (PStr number)
    /\ number = "12345678909".
Proof.
  destruct (cashtime_payload_document
              (("cpf", PStr "123.456.789-09") :: sample_request (PInt 20)) 2000
              (match cashtime_payload
                       (("cpf", PStr "123.456.789-09") :: sample_request (PInt 20)) 2000 with
               | inr p => p
               | inl _ => PNone
               end) eq_refl)
    as (cpf & number & Hcpf & Hnumber & _).
  exists cpf, number. split_and!; [exact Hcpf | exact Hnumber |].
  vm_compute in Hnumber. by injection Hnumber as <-.
Defined.

(** X6: a cpf that is given but is not a string (a number, a null) makes the
    call raise before any request is sent, whatever else [data] holds. *)
Theorem create_pix_payment_cpf_not_str
    (w : world) (self : CashtimeAPI) (data : dict) (tr : list net_call) (v : pyval) :
  dict_lookup data "cpf" = Some v ->
  (forall s, v <> PStr s) ->
  exists e, create_pix_payment w self data tr = (inl e, tr)
    /\ exn_cls e = Exception.
Proof.
  intros Hcpf Hv.
  assert (forall cents payload, cashtime_payload data cents <> inr payload) as Hnever.
  { intros cents payload Hpayload.
    destruct (cashtime_payload_cpf data cents payload Hpayload) as (s & Hs & _).
    unfold dict_get in Hs. rewrite Hcpf in Hs. by apply (Hv s). }
  destruct (create_pix_payment w self data tr) as [out tr'] eqn:Hrun.
  assert (tr' = tr) as ->.
  { destruct (create_pix_payment_before_post w self data tr)
      as [Hnone|(? & ? & cents & payload & _ & _ & _ & _ & _ & Hpayload & _)].
    - by rewrite Hrun in Hnone.
    - by apply Hnever in Hpayload. }
  destruct out as [e|r].
  - exists e. split; [done|]. by apply create_pix_payment_raises_exception in Hrun.
  - apply create_pix_payment_returns in Hrun.
    destruct Hrun as (? & ? & cents & payload & ? & ? & ? & ? & ? & ? & ? & ? & Hrun).
    destruct Hrun as (_ & _ & _ & _ & _ & Hpayload & _). by apply Hnever in Hpayload.
Qed.

Lemma create_pix_payment_cpf_not_str_witness :
  exists e,
    create_pix_payment (sample_world (inr pix_response) (inr pix_response)) sample_client
      (("cpf", PInt 12345678909) :: sample_request (PInt 20)) []
    = (inl e, [])
    /\ exn_cls e = Exception.
Proof.
  apply (create_pix_payment_cpf_not_str _ _ _ _ (PInt 12345678909)).
  - reflexivity.
  - discriminate.
Defined.

(** ** Further properties: check_payment_status *)

(** X8: a response that is not [ok] and is no 404 gives the failure whose
    message ends with the status code; its body is not read, so it does not
    matter whether it would parse. *)
Theorem check_payment_status_api_error
    (w : world) (self : CashtimeAPI) (txid : string) (tr : list net_call) (r : response) :
  requests_get w (status_url txid) (_get_headers self) 30 = inr r ->
  status_code r <> 404%Z ->
  ok r = false ->
  check_payment_status w self txid tr
  = (inr (PDict [ ("success", PBool false);
                  ("error", PStr ("Erro na API: " +:+ pretty (status_code r))) ]),
     tr ++ [HttpGet (status_url txid) (_get_headers self) 30]).
Proof.
  intros Hget H404 Hok. apply Z.eqb_neq in H404.
  unfold check_payment_status, check_payment_status_body. unfold_M.
  by rewrite Hget, H404, Hok.
Qed.

Lemma check_payment_status_api_error_witness :
  fst (check_payment_status (sample_world (inr pix_response) (inr (error_response 503)))
         sample_client "tr_01" [])
  = inr (PDict [ ("success", PBool false); ("error", PStr "Erro na API: 503") ]).
Proof.
  rewrite (check_payment_status_api_error
             (sample_world (inr pix_response) (inr (error_response 503)))
             sample_client "tr_01" [] (error_response 503) eq_refl).
  - reflexivity.
  - discriminate.
  - reflexivity.
Defined.

(** The run on an [ok] response that is no 404, up to the reading of the
    body. *)
Lemma check_payment_status_parsed
    (w : world) (self : CashtimeAPI) (txid : string) (tr : list net_call) (r : response) :
  requests_get w (status_url txid) (_get_headers self) 30 = inr r ->
  status_code r <> 404%Z ->
  ok r = true ->
  fst (check_payment_status w self txid tr)
  = inr match json r with
        | inl e => failure_result (exn_str e)
        | inr (PDict b) =>
            match dict_get b "orders" (PDict []) with
            | PDict orders =>
                match (if truthy (dict_get orders "total" PNone)
                       then py_truediv (dict_get orders "total" (PInt 0)) (PInt 100)
                       else inr (PInt 0)) with
                | inl e => failure_result (exn_str e)
                | inr amount =>
                    PDict
                      [ ("success", PBool true);
                        ("txid", PStr txid);
                        ("status", dict_get orders "status" (PStr "unknown"));
                        ("amount", amount);
                        ("payment_method", dict_get orders "paymentMethod" PNone);
                        ("created_at", dict_get orders "createdAt" PNone);
                        ("updated_at", dict_get orders "updatedAt" PNone);
                        ("cashtime_response", PDict b) ]
                end
            | orders => failure_result (exn_str (no_attribute orders "get"))
            end
        | inr result => failure_result (exn_str (no_attribute result "get"))
        end.
Proof.
  intros Hget H404 Hok.
  destruct (json r) as [e|result] eqn:Hjson.
  { unfold check_payment_status, check_payment_status_body. unfold_M.
    apply Z.eqb_neq in H404. by rewrite Hget, H404, Hok, Hjson. }
  destruct result as [| | | | | |b];
    try (unfold check_payment_status, check_payment_status_body; unfold_M;
         apply Z.eqb_neq in H404; by rewrite Hget, H404, Hok, Hjson).
  destruct (dict_get b "orders" (PDict [])) as [| | | | | |orders] eqn:Horders;
    try (unfold check_payment_status, check_payment_status_body; unfold_M;
         apply Z.eqb_neq in H404; rewrite Hget, H404, Hok, Hjson; simpl;
         by rewrite Horders).
  by rewrite (check_payment_status_ok w self txid tr r b orders).
Qed.

(** X9: an [ok] response whose body is not what is expected is reported as
    a failure carrying the interpreter's message, never as a status: a body
    that does not parse, one that is no object, an [orders] that is no object
    (a null, say), and a total that is truthy but no number (a string). *)
Theorem check_payment_status_malformed_body
    (w : world) (self : CashtimeAPI) (txid : string) (tr : list net_call) (r : response) :
  requests_get w (status_url txid) (_get_headers self) 30 = inr r ->
  status_code r <> 404%Z ->
  ok r = true ->
  (forall e, json r = inl e ->
     fst (check_payment_status w self txid tr) = inr (failure_result (exn_str e)))
  /\ (forall v, json r = inr v -> (forall b, v <> PDict b) ->
        fst (check_payment_status w self txid tr)
        = inr (failure_result ("'" +:+ type_name v +:+ "' object has no attribute 'get'")))
  /\ (forall b v, json r = inr (PDict b) -> dict_lookup b "orders" = Some v ->
        (forall orders, v <> PDict orders) ->
        fst (check_payment_status w self txid tr)
        = inr (failure_result ("'" +:+ type_name v +:+ "' object has no attribute 'get'")))
  /\ (forall b orders total,
        json r = inr (PDict b) -> dict_get b "orders" (PDict []) = PDict orders ->
        dict_lookup orders "total" = Some total -> truthy total = true ->
        as_number total = None ->
        fst (check_payment_status w self txid tr)
        = inr (failure_result
                 ("unsupported operand type(s) for /: '" +:+ type_name total
                    +:+ "' and 'int'"))).
Proof.
  intros Hget H404 Hok.
  rewrite (check_payment_status_parsed w self txid tr r) by assumption.
  split_and!.
  - by intros e ->.
  - intros v -> Hv. destruct v; try done. by edestruct Hv.
  - intros b v -> Hlookup Hv. unfold dict_get. rewrite Hlookup.
    destruct v; try done. by edestruct Hv.
  - intros b orders total -> -> Htotal Htruthy Hnumber.
    unfold dict_get. rewrite Htotal, Htruthy. unfold py_truediv. by rewrite Hnumber.
Qed.

Lemma check_payment_status_malformed_body_witness :
  fst (check_payment_status
         (sample_world (inr pix_response) (inr (status_response (PStr "1990"))))
         sample_client "tr_01" [])
  = inr (failure_result "unsupported operand type(s) for /: 'str' and 'int'").
Proof.
  refine (proj2 (proj2 (proj2 (check_payment_status_malformed_body
                                 (sample_world (inr pix_response)
                                    (inr (status_response (PStr "1990"))))
                                 sample_client "tr_01" [] (status_response (PStr "1990"))
                                 eq_refl _ eq_refl)))
            _ _ (PStr "1990") eq_refl eq_refl eq_refl eq_refl eq_refl).
  discriminate.
Defined.

(** X13: an [ok] response whose body is an object with no [orders] entry is
    reported as a success: status [unknown], amount 0, no payment method and
    no timestamps, with the identifier asked for and the body attached. *)
Theorem check_payment_status_no_orders
    (w : world) (self : CashtimeAPI) (txid : string) (tr : list net_call)
    (r : response) (b : dict) :
  requests_get w (status_url txid) (_get_headers self) 30 = inr r ->
  status_code r <> 404%Z ->
  ok r = true ->
  json r = inr (PDict b) ->
  dict_lookup b "orders" = None ->
  check_payment_status w self txid tr
  = (inr (PDict
       [ ("success", PBool true);
         ("txid", PStr txid);
         ("status", PStr "unknown");
         ("amount", PInt 0);
         ("payment_method", PNone);
         ("created_at", PNone);
         ("updated_at", PNone);
         ("cashtime_response", PDict b) ]),
     tr ++ [HttpGet (status_url txid) (_get_headers self) 30]).
Proof.
  intros Hget H404 Hok Hjson Horders.
  rewrite (check_payment_status_ok w self txid tr r b []); try done.
  unfold dict_get. by rewrite Horders.
Qed.

Lemma check_payment_status_no_orders_witness :
  fst (check_payment_status
         (sample_world (inr pix_response) (inr (Response 200 true "{}" (inr (PDict [])))))
         sample_client "tr_01" [])
  = inr (PDict
       [ ("success", PBool true);
         ("txid", PStr "tr_01");
         ("status", PStr "unknown");
         ("amount", PInt 0);
         ("payment_method", PNone);
         ("created_at", PNone);
         ("updated_at", PNone);
         ("cashtime_response", PDict []) ]).
Proof.
  rewrite (check_payment_status_no_orders
             (sample_world (inr pix_response) (inr (Response 200 true "{}" (inr (PDict [])))))
             sample_client "tr_01" [] (Response 200 true "{}" (inr (PDict []))) []
             eq_refl).
  - reflexivity.
  - discriminate.
  - reflexivity.
  - reflexivity.
  - reflexivity.
Defined.

(** ** Further properties: the factory and the headers together *)

Lemma get_headers_secret_key (self : CashtimeAPI) :
  _get_headers self !! "x-authorization-key" = Some (secret_key self).
Proof.
  unfold _get_headers.
  destruct (public_key self) as [pk|]; [destruct (truthy_opt _)|]; by simplify_map_eq.
Qed.

(** X10: the headers of a client the factory returns carry a non-empty
    secret key, the argument if it is non-empty and CASHTIME_SECRET_KEY
    otherwise; they carry [x-store-key] exactly when the public-key argument or,
    failing it, CASHTIME_PUBLIC_KEY is non-empty, with that value. *)
Theorem create_cashtime_api_headers
    (w : world) (secret public : option string) (api : CashtimeAPI) :
  create_cashtime_api w secret public = inr api ->
  (exists key,
     _get_headers api !! "x-authorization-key" = Some key
     /\ key <> ""
     /\ Some key = (if truthy_opt secret then secret
                    else environ w !! "CASHTIME_SECRET_KEY"))
  /\ _get_headers api !! "x-store-key"
     = (let chosen := if truthy_opt public then public
                      else environ w !! "CASHTIME_PUBLIC_KEY" in
        if truthy_opt chosen then chosen else None).
Proof.
  unfold create_cashtime_api. intros Hapi.
  assert (exists key,
            (if truthy_opt secret then secret else environ w !! "CASHTIME_SECRET_KEY")
            = Some key
            /\ key <> ""
            /\ api = Build_CashtimeAPI key
                       (if truthy_opt public then public
                        else environ w !! "CASHTIME_PUBLIC_KEY")) as (key & Hkey & Hne & ->).
  { destruct (truthy_opt secret) eqn:Hs; simpl in Hapi.
    - destruct (truthy_opt_default _ Hs) as [Hsome Hne]. injection Hapi as <-.
      exists (default "" secret). split_and!; try done.
      by destruct (truthy_opt public).
    - destruct (truthy_opt (environ w !! "CASHTIME_SECRET_KEY")) eqn:He;
        simpl in Hapi; [|done].
      destruct (truthy_opt_default _ He) as [Hsome Hne]. injection Hapi as <-.
      exists (default "" (environ w !! "CASHTIME_SECRET_KEY")). split_and!; try done.
      by destruct (truthy_opt public). }
  split.
  - exists key. split_and!; try done. by rewrite get_headers_secret_key.
  - by rewrite get_headers_store_key.
Qed.

Lemma create_cashtime_api_headers_witness :
  exists api,
    create_cashtime_api
      (reseed (sample_world (inr pix_response) (inr pix_response)) 0 (fun _ => []))
      (Some "sk_live") (Some "")
    = inr api
    /\ _get_headers api !! "x-authorization-key" = Some "sk_live"
    /\ _get_headers api !! "x-store-key" = None.
Proof.
  pose (w := reseed (sample_world (inr pix_response) (inr pix_response)) 0 (fun _ => [])).
  exists (Build_CashtimeAPI "sk_live" None).
  destruct (create_cashtime_api_headers w (Some "sk_live") (Some "")
              (Build_CashtimeAPI "sk_live" None) eq_refl)
    as [(key & Hkey & _ & Hsome) Hstore].
  split_and!; [reflexivity| |exact Hstore].
  simpl in Hsome. injection Hsome as ->. exact Hkey.
Defined.

(** ** Further properties: the conversion to cents *)

(** X14: for a float amount the cents are the binary64 product with 100 cut
    toward zero, never rounded up: with the product worth [m * 2^e] in
    magnitude, the cents have the product's sign and the largest integer
    magnitude not above it.  A product that is NaN or infinite raises. *)
Theorem amount_to_cents_truncates (w : world) (f : float) :
  match Prim2SF (f * 100)%float with
  | S754_nan =>
      amount_to_cents w (PFloat f)
      = inl (Raise ValueError "cannot convert float NaN to integer")
  | S754_infinity _ =>
      amount_to_cents w (PFloat f)
      = inl (Raise OverflowError "cannot convert float infinity to integer")
  | S754_zero _ => amount_to_cents w (PFloat f) = inr 0%Z
  | S754_finite s m e =>
      exists cents,
        amount_to_cents w (PFloat f) = inr cents
        /\ (if s then cents <= 0 else 0 <= cents)%Z
        /\ (0 <= e -> Z.abs cents = Z.pos m * 2 ^ e)%Z
        /\ (e < 0 ->
            Z.abs cents * 2 ^ (- e) <= Z.pos m < (Z.abs cents + 1) * 2 ^ (- e))%Z
  end.
Proof.
  unfold amount_to_cents, py_float, mbind, res_mbind, res_bind, int_of_float.
  destruct (Prim2SF (f * 100)%float) as [| | |s m e]; try reflexivity.
  destruct (0 <=? e)%Z eqn:He.
  - apply Z.leb_le in He. rewrite Z.shiftl_mul_pow2 by done.
    assert (0 < Z.pos m * 2 ^ e)%Z by (apply Z.mul_pos_pos; [lia|by apply Z.pow_pos_nonneg]).
    eexists. split; [reflexivity|]. destruct s; split_and!; lia.
  - apply Z.leb_gt in He. rewrite Z.shiftr_div_pow2 by lia.
    assert (0 < 2 ^ (- e))%Z as Hpow by (apply Z.pow_pos_nonneg; lia).
    pose proof (Z.div_pos (Z.pos m) (2 ^ (- e)) ltac:(lia) Hpow) as Hq.
    pose proof (Z.mul_div_le (Z.pos m) (2 ^ (- e)) Hpow) as Hlow.
    pose proof (Z.mul_succ_div_gt (Z.pos m) (2 ^ (- e)) Hpow) as Hhigh.
    eexists. split; [reflexivity|].
    destruct s; split_and!; lia.
Qed.

(** X15: a result of [check_payment_status] with [success] true was read
    from an [ok] response, no 404, whose body is an object with [orders]
    absent or an object; it has the identifier that was asked for, the order's
    status, payment method and timestamps ([unknown] and [None] for missing
    ones), and the whole body under [cashtime_response]. *)
Theorem check_payment_status_success
    (w : world) (self : CashtimeAPI) (txid : string) (tr : list net_call) (d : dict) :
  fst (check_payment_status w self txid tr) = inr (PDict d) ->
  dict_lookup d "success" = Some (PBool true) ->
  exists r b orders,
    requests_get w (status_url txid) (_get_headers self) 30 = inr r
    /\ status_code r <> 404%Z /\ ok r = true
    /\ json r = inr (PDict b)
    /\ dict_get b "orders" (PDict []) = PDict orders
    /\ dict_keys d
       = [ "success"; "txid"; "status"; "amount"; "payment_method"; "created_at";
           "updated_at"; "cashtime_response" ]
    /\ dict_lookup d "txid" = Some (PStr txid)
    /\ dict_lookup d "status" = Some (dict_get orders "status" (PStr "unknown"))
    /\ dict_lookup d "payment_method" = Some (dict_get orders "paymentMethod" PNone)
    /\ dict_lookup d "created_at" = Some (dict_get orders "createdAt" PNone)
    /\ dict_lookup d "updated_at" = Some (dict_get orders "updatedAt" PNone)
    /\ dict_lookup d "cashtime_response" = Some (PDict b).
Proof.
  intros Hrun Hsuccess.
  destruct (requests_get w (status_url txid) (_get_headers self) 30) as [e|r] eqn:Hget.
  { revert Hrun. unfold check_payment_status, check_payment_status_body. unfold_M.
    rewrite Hget. simpl. intros [= <-]. done. }
  destruct (status_code r =? 404)%Z eqn:H404.
  { revert Hrun. unfold check_payment_status, check_payment_status_body. unfold_M.
    rewrite Hget, H404. simpl. intros [= <-]. done. }
  destruct (ok r) eqn:Hok.
  2: { revert Hrun. unfold check_payment_status, check_payment_status_body. unfold_M.
       rewrite Hget, H404, Hok. simpl. intros [= <-]. done. }
  apply Z.eqb_neq in H404.
  rewrite (check_payment_status_parsed w self txid tr r Hget H404 Hok) in Hrun.
  destruct (json r) as [e|result] eqn:Hjson; [by injection Hrun as <-|].
  destruct result as [| | | | | |b]; try by injection Hrun as <-.
  destruct (dict_get b "orders" (PDict [])) as [| | | | | |orders] eqn:Horders;
    try by injection Hrun as <-.
  destruct (if truthy (dict_get orders "total" PNone) then _ else _) as [e|amount];
    injection Hrun as <-; [done|].
  exists r, b, orders. by split_and!.
Qed.

Lemma check_payment_status_success_witness :
  exists r b orders,
    requests_get (sample_world (inr pix_response) (inr (status_response (PInt 1990))))
      (status_url "tr_01") (_get_headers sample_client) 30 = inr r
    /\ json r = inr (PDict b)
    /\ dict_get b "orders" (PDict []) = PDict orders
    /\ dict_get orders "status" (PStr "unknown") = PStr "paid".
Proof.
  pose (w := sample_world (inr pix_response) (inr (status_response (PInt 1990)))).
  pose (d := match fst (check_payment_status w sample_client "tr_01" []) with
             | inr (PDict d) => d
             | _ => []
             end).
  destruct (check_payment_status_success w sample_client "tr_01" [] d eq_refl eq_refl)
    as (r & b & orders & Hget & _ & _ & Hjson & Horders & _).
  exists r, b, orders. split_and!; try done.
  injection Hget as <-. injection Hjson as <-. injection Horders as <-. reflexivity.
Defined.

(** ** Further properties: what the payload holds whatever [data] is *)

(** X16: nothing in [data] changes the fixed part of the payload: one item
    of quantity 1 marked not tangible, payment method pix, one installment
    with no fee, the information-product flag, the callback URL and the IP.
    A name, email or phone that is present is sent as it is (a null too): the
    defaults stand in for absent keys only. *)
Theorem cashtime_payload_fixed_fields (data : dict) (cents : Z) (payload : pyval) :
  cashtime_payload data cents = inr payload ->
  py_path payload [Key "paymentMethod"] = Some (PStr "pix")
  /\ py_path payload [Key "installments"] = Some (PInt 1)
  /\ py_path payload [Key "installmentFee"] = Some (PInt 0)
  /\ py_path payload [Key "isInfoProducts"] = Some (PBool true)
  /\ py_path payload [Key "postbackUrl"]
     = Some (PStr "https://webhook.site/unique-uuid-4-testing")
  /\ py_path payload [Key "ip"] = Some (PStr "127.0.0.1")
  /\ (exists item, py_path payload [Key "items"] = Some (PList [item])
        /\ py_path item [Key "quantity"] = Some (PInt 1)
        /\ py_path item [Key "tangible"] = Some (PBool false)
        /\ py_path item [Key "description"] = dict_lookup data "description")
  /\ (forall field v, field ∈ ["name"; "email"; "phone"] ->
        dict_lookup data field = Some v ->
        py_path payload [Key "customer"; Key field] = Some v)
  /\ (dict_lookup data "phone" = None ->
      py_path payload [Key "customer"; Key "phone"] = Some (PStr "11999999999")).
Proof.
  unfold cashtime_payload, mbind, res_mbind, res_bind, mret, res_mret.
  destruct (strip_punctuation _); [done|].
  unfold py_index. destruct (dict_lookup data "description") as [description|]; [|done].
  intros [= <-]. split_and!; try reflexivity.
  - eexists. by split_and!.
  - intros field v Hfield Hv.
    repeat (apply elem_of_cons in Hfield as [->|Hfield]);
      [..|by apply elem_of_nil in Hfield];
      simpl; unfold dict_get; by rewrite Hv.
  - intros Hphone. simpl. unfold dict_get. by rewrite Hphone.
Qed.

Lemma cashtime_payload_fixed_fields_witness :
  py_path (match cashtime_payload (("name", PNone) :: sample_request (PInt 20)) 2000 with
           | inr p => p
           | inl _ => PNone
           end)
    [Key "customer"; Key "name"] = Some PNone.
Proof.
  refine (proj1 (proj2 (proj2 (proj2 (proj2 (proj2 (proj2 (proj2
            (cashtime_payload_fixed_fields (("name", PNone) :: sample_request (PInt 20))
               2000 _ eq_refl))))))))
            "name" PNone _ eq_refl).
  apply elem_of_cons. by left.
Defined.
